(** * LambdaEdge fault-event dashboard: the data pipeline of LambdaDashboard.py

    The dashboard script scans a DynamoDB table, normalises the items into
    telemetry records, keeps the records of a trailing time window, derives
    a completeness figure and a fault trend, and asks a remote endpoint for
    a prediction.  This development embeds that pipeline: Python values,
    [int], [float], [round] and true division are modelled on binary64
    floats (the Standard Library's [SpecFloat]), exceptions on a small
    error monad, data frames on lists of rows in row order. *)

From Stdlib Require Import ZArith List String Ascii Bool Lia Sorted.
From Stdlib Require Import Floats.SpecFloat.
Import ListNotations.

Local Open Scope string_scope.
Local Open Scope Z_scope.

(** ** Exceptions and the error monad *)

Module Exn.

(** The exception classes the script can meet.  The [requests] classes
    follow the library's hierarchy: [ConnectionError], [Timeout],
    [HTTPError] and [InvalidJSONError] derive from [RequestException];
    [requests.exceptions.JSONDecodeError], which [Response.json] raises,
    derives from both [InvalidJSONError] and [json.JSONDecodeError], the
    latter a [ValueError]. *)
Inductive cls :=
  | BaseException
  | Exception
  | TypeError
  | ValueError
  | ArithmeticError
  | OverflowError
  | ZeroDivisionError
  | AttributeError
  | LookupError
  | IndexError
  | OSError
  | JSONDecodeError            (* json.JSONDecodeError *)
  | RequestException           (* requests.exceptions.RequestException *)
  | ConnectionError            (* requests.exceptions.ConnectionError *)
  | RequestsTimeout            (* requests.exceptions.Timeout *)
  | HTTPError                  (* requests.exceptions.HTTPError *)
  | InvalidJSONError           (* requests.exceptions.InvalidJSONError *)
  | RequestsJSONDecodeError.   (* requests.exceptions.JSONDecodeError *)

(** The direct base classes of a class. *)
Definition bases (c : cls) : list cls :=
  match c with
  | BaseException => []
  | Exception => [BaseException]
  | TypeError => [Exception]
  | ValueError => [Exception]
  | ArithmeticError => [Exception]
  | OverflowError => [ArithmeticError]
  | ZeroDivisionError => [ArithmeticError]
  | AttributeError => [Exception]
  | LookupError => [Exception]
  | IndexError => [LookupError]
  | OSError => [Exception]
  | JSONDecodeError => [ValueError]
  | RequestException => [OSError]
  | ConnectionError => [RequestException]
  | RequestsTimeout => [RequestException]
  | HTTPError => [RequestException]
  | InvalidJSONError => [RequestException]
  | RequestsJSONDecodeError => [InvalidJSONError; JSONDecodeError]
  end.

Definition cls_eqb (a b : cls) : bool :=
  match a, b with
  | BaseException, BaseException | Exception, Exception
  | TypeError, TypeError | ValueError, ValueError
  | ArithmeticError, ArithmeticError | OverflowError, OverflowError
  | ZeroDivisionError, ZeroDivisionError | AttributeError, AttributeError
  | LookupError, LookupError | IndexError, IndexError | OSError, OSError
  | JSONDecodeError, JSONDecodeError | RequestException, RequestException
  | ConnectionError, ConnectionError | RequestsTimeout, RequestsTimeout
  | HTTPError, HTTPError | InvalidJSONError, InvalidJSONError
  | RequestsJSONDecodeError, RequestsJSONDecodeError => true
  | _, _ => false
  end.

(** [issubclass c d]; the hierarchy is at most five levels deep. *)
Fixpoint issubclass_fuel (fuel : nat) (c d : cls) : bool :=
  cls_eqb c d ||
  match fuel with
  | O => false
  | S fuel' => existsb (fun b => issubclass_fuel fuel' b d) (bases c)
  end.

Definition issubclass : cls -> cls -> bool := issubclass_fuel 6.

(** A raised exception: its class and the text [str(e)] gives. *)
Record t := mk { class_of : cls; message : string }.

Definition isinstance (e : t) (c : cls) : bool := issubclass (class_of e) c.

End Exn.

(** The outcome of evaluating a Python expression. *)
Inductive result (A : Type) :=
  | Return (a : A)
  | Raise (e : Exn.t).
Arguments Return {A} a.
Arguments Raise {A} e.

Definition bind {A B} (m : result A) (k : A -> result B) : result B :=
  match m with
  | Return a => k a
  | Raise e => Raise e
  end.

Notation "x <- m ;; k" := (bind m (fun x => k))
  (at level 61, m at next level, right associativity).

Definition raise {A} (c : Exn.cls) (msg : string) : result A :=
  Raise (Exn.mk c msg).

Definition raises {A} (m : result A) : Prop := exists e, m = Raise e.
Definition returns {A} (m : result A) : Prop := exists a, m = Return a.

(** ** Python floats: IEEE 754 binary64 *)

Module Float.

Definition prec : Z := 53.
Definition emax : Z := 1024.

Definition t := spec_float.

Definition mul : t -> t -> t := SFmul prec emax.
Definition div : t -> t -> t := SFdiv prec emax.

(** The double nearest to the integer [z] (ties to even); an infinity
    when [z] is beyond the range. *)
Definition of_Z (z : Z) : t := binary_normalize prec emax z 0 false.

(** The double nearest to the quotient [n / d] of two integers, [d > 0]:
    the division rounds once, on the exact quotient. *)
Definition of_quotient (n : Z) (d : positive) : t :=
  match n with
  | Z0 => S754_zero false
  | Zpos p => div (S754_finite false p 0) (S754_finite false d 0)
  | Zneg p => div (S754_finite true p 0) (S754_finite false d 0)
  end.

(** The double nearest to [n * 10 ^ e], as a decimal literal denotes it. *)
Definition of_decimal (n : Z) (e : Z) : t :=
  match e with
  | Zneg k => of_quotient n (Pos.pow 10 k)
  | _ => of_Z (n * 10 ^ e)
  end.

Definition is_finite (x : t) : bool :=
  match x with
  | S754_zero _ | S754_finite _ _ _ => true
  | _ => false
  end.

Definition is_zero (x : t) : bool :=
  match x with
  | S754_zero _ => true
  | _ => false
  end.

(** [x == y] on floats: a NaN equals nothing, the two zeros are equal. *)
Definition eqb : t -> t -> bool := SFeqb.

(** Truncation toward zero of a finite float. *)
Definition trunc (x : t) : option Z :=
  match x with
  | S754_zero _ => Some 0
  | S754_finite s m e =>
      let a := match e with
               | Zneg k => Z.shiftr (Zpos m) (Zpos k)
               | _ => Zpos m * 2 ^ e
               end in
      Some (if s then - a else a)
  | _ => None
  end.

(** The integer nearest to [m * 2 ^ e * 10 ^ nd], ties to even, for a
    positive mantissa [m]. *)
Definition scaled_round_half_even (m : positive) (e : Z) (nd : N) : Z :=
  let n := Zpos m * 10 ^ Z.of_N nd in
  match e with
  | Zneg k =>
      let d := 2 ^ Zpos k in
      let q := n / d in
      let r := n mod d in
      match 2 * r ?= d with
      | Lt => q
      | Gt => q + 1
      | Eq => if Z.even q then q else q + 1
      end
  | _ => n * 2 ^ e
  end.

(** [round(x, ndigits)] for a float [x] and [ndigits >= 0], as CPython
    computes it: the exact value of [x] is rounded to [ndigits] decimal
    places, ties to even, and the decimal obtained is converted back to
    the nearest double.  Infinities and NaN round to themselves. *)
Definition round (x : t) (ndigits : N) : t :=
  match x with
  | S754_finite s m e =>
      match scaled_round_half_even m e ndigits with
      | Zpos n =>
          div (S754_finite s n 0)
              (S754_finite false (Z.to_pos (10 ^ Z.of_N ndigits)) 0)
      | _ => S754_zero s
      end
  | _ => x
  end.

(** Same representation, which tells [0.0] from [-0.0]. *)
Definition same (x y : t) : bool :=
  match x, y with
  | S754_zero s, S754_zero s' => Bool.eqb s s'
  | S754_infinity s, S754_infinity s' => Bool.eqb s s'
  | S754_nan, S754_nan => true
  | S754_finite s m e, S754_finite s' m' e' =>
      Bool.eqb s s' && Pos.eqb m m' && Z.eqb e e'
  | _, _ => false
  end.

End Float.

(** ** Python values as DynamoDB items carry them *)

Module Py.

(** A finite [decimal.Decimal]: (-1)^sign * coefficient * 10^exponent.
    DynamoDB numbers are finite, so NaN and infinities do not occur. *)
Record Decimal := mkDecimal {
  dec_sign : bool;
  dec_coefficient : N;
  dec_exponent : Z
}.

#[local] Set Warnings "-register-all".
Inductive value :=
  | VNone
  | VBool (b : bool)
  | VInt (z : Z)
  | VFloat (f : Float.t)
  | VDecimal (d : Decimal)
  | VStr (s : string)
  | VList (l : list value)
  | VDict (d : list (string * value)).
#[local] Set Warnings "register-all".

(** A [dict] with string keys, in insertion order; keys are unique. *)
Definition dict := list (string * value).

Fixpoint dict_lookup (d : dict) (key : string) : option value :=
  match d with
  | [] => None
  | (k, v) :: tl => if String.eqb k key then Some v else dict_lookup tl key
  end.

(** [d.get(key, default)] *)
Definition dict_get (d : dict) (key : string) (default : value) : value :=
  match dict_lookup d key with
  | Some v => v
  | None => default
  end.

(** [v.get(key)] on an arbitrary value: only a [dict] has the method. *)
Definition get (v : value) (key : string) : result value :=
  match v with
  | VDict d => Return (dict_get d key VNone)
  | _ => raise Exn.AttributeError "object has no attribute 'get'"
  end.

(** Truth value testing. *)
Definition truthy (v : value) : bool :=
  match v with
  | VNone => false
  | VBool b => b
  | VInt z => negb (z =? 0)
  | VFloat f => negb (Float.is_zero f)
  | VDecimal d => negb (N.eqb (dec_coefficient d) 0)
  | VStr s => negb (String.eqb s "")
  | VList l => match l with [] => false | _ => true end
  | VDict d => match d with [] => false | _ => true end
  end.

(** [a or b], both operands already evaluated ([b] has no effect here). *)
Definition or (a b : value) : value := if truthy a then a else b.

(** *** Text: ASCII strings *)

Definition code (c : ascii) : Z := Z.of_N (N_of_ascii c).

Definition is_digit (c : ascii) : bool := (48 <=? code c) && (code c <=? 57).

Definition is_space (c : ascii) : bool :=
  ((9 <=? code c) && (code c <=? 13)) || ((28 <=? code c) && (code c <=? 32)).

Definition digit_val (c : ascii) : Z := code c - 48.

Definition lower (c : ascii) : ascii :=
  if (65 <=? code c) && (code c <=? 90)
  then ascii_of_N (N_of_ascii c + 32) else c.

(** [s.isdigit()]: at least one character, all of them digits. *)
Definition isdigit (s : string) : bool :=
  match list_ascii_of_string s with
  | [] => false
  | cs => forallb is_digit cs
  end.

Fixpoint lstrip (cs : list ascii) : list ascii :=
  match cs with
  | c :: tl => if is_space c then lstrip tl else cs
  | [] => []
  end.

Definition strip (cs : list ascii) : list ascii :=
  rev (lstrip (rev (lstrip cs))).

(** A sign, if there is one, and what follows it. *)
Definition take_sign (cs : list ascii) : bool * list ascii :=
  match cs with
  | "-"%char :: tl => (true, tl)
  | "+"%char :: tl => (false, tl)
  | _ => (false, cs)
  end.

(** The longest prefix of the shape digit (_? digit)*, returned without
    its underscores, and the rest of the text. *)
Fixpoint digit_run (cs : list ascii) : list ascii * list ascii :=
  match cs with
  | c :: tl =>
      if is_digit c then
        match tl with
        | "_"%char :: ((c' :: _) as tl') =>
            if is_digit c'
            then let '(ds, rest) := digit_run tl' in (c :: ds, rest)
            else ([c], tl)
        | _ => let '(ds, rest) := digit_run tl in (c :: ds, rest)
        end
      else ([], cs)
  | [] => ([], [])
  end.

Definition digits_value (ds : list ascii) : Z :=
  fold_left (fun acc c => acc * 10 + digit_val c) ds 0.

(** The integer a decimal literal denotes, as [int(s)] reads it:
    surrounding whitespace, a sign, digits with single underscores. *)
Definition parse_int (s : string) : option Z :=
  let '(neg, body) := take_sign (strip (list_ascii_of_string s)) in
  match digit_run body with
  | ((_ :: _) as ds, []) =>
      Some (if neg then - digits_value ds else digits_value ds)
  | _ => None
  end.

Definition exponent_part (cs : list ascii) : option (Z * list ascii) :=
  match cs with
  | c :: tl =>
      if Ascii.eqb (lower c) "e"%char then
        let '(neg, body) := take_sign tl in
        match digit_run body with
        | ((_ :: _) as ds, rest) =>
            Some (if neg then - digits_value ds else digits_value ds, rest)
        | _ => None
        end
      else Some (0, cs)
  | [] => Some (0, [])
  end.

(** The float a literal denotes, as [float(s)] reads it: surrounding
    whitespace, a sign, then [inf], [infinity], [nan] or a decimal
    number with an optional fraction and exponent. *)
Definition parse_float (s : string) : option Float.t :=
  let '(neg, body) := take_sign (strip (list_ascii_of_string s)) in
  let word := string_of_list_ascii (map lower body) in
  if String.eqb word "inf" || String.eqb word "infinity"
  then Some (S754_infinity neg)
  else if String.eqb word "nan" then Some S754_nan
  else
    let '(ip, r1) := digit_run body in
    let '(fp, r2) := match r1 with
                     | "."%char :: tl => digit_run tl
                     | _ => ([], r1)
                     end in
    match (ip ++ fp)%list with
    | [] => None
    | ds =>
        match exponent_part r2 with
        | Some (e, []) =>
            let m := digits_value ds in
            if m =? 0 then Some (S754_zero neg)
            else Some (Float.of_decimal (if neg then - m else m)
                                        (e - Z.of_nat (List.length fp)))
        | _ => None
        end
    end.

(** *** Numeric conversions *)

Definition decimal_to_float (d : Decimal) : Float.t :=
  match dec_coefficient d with
  | N0 => S754_zero (dec_sign d)
  | Npos p =>
      Float.of_decimal (if dec_sign d then Zneg p else Zpos p) (dec_exponent d)
  end.

(** The integer part of a decimal, toward zero. *)
Definition decimal_trunc (d : Decimal) : Z :=
  let c := Z.of_N (dec_coefficient d) in
  let a := match dec_exponent d with
           | Zneg k => c / 10 ^ Zpos k
           | e => c * 10 ^ e
           end in
  if dec_sign d then - a else a.

(** An integer converts to a float unless it rounds beyond the largest
    double, 2^1024 - 2^971; the first integer that does is 2^1024 - 2^970. *)
Definition float_overflow_bound : Z := 2 ^ 1024 - 2 ^ 970.

Definition int_to_float (z : Z) : result Float.t :=
  if float_overflow_bound <=? Z.abs z
  then raise Exn.OverflowError "int too large to convert to float"
  else Return (Float.of_Z z).

(** [int(v)] *)
Definition int (v : value) : result Z :=
  match v with
  | VInt z => Return z
  | VBool b => Return (if b then 1 else 0)
  | VFloat f =>
      match Float.trunc f with
      | Some z => Return z
      | None =>
          match f with
          | S754_nan => raise Exn.ValueError "cannot convert float NaN to integer"
          | _ => raise Exn.OverflowError "cannot convert float infinity to integer"
          end
      end
  | VDecimal d => Return (decimal_trunc d)
  | VStr s =>
      match parse_int s with
      | Some z => Return z
      | None => raise Exn.ValueError "invalid literal for int() with base 10"
      end
  | VNone | VList _ | VDict _ =>
      raise Exn.TypeError "int() argument must be a string or a real number"
  end.

(** [float(v)] *)
Definition float (v : value) : result Float.t :=
  match v with
  | VFloat f => Return f
  | VInt z => int_to_float z
  | VBool b => Return (Float.of_Z (if b then 1 else 0))
  | VDecimal d => Return (decimal_to_float d)
  | VStr s =>
      match parse_float s with
      | Some f => Return f
      | None => raise Exn.ValueError "could not convert string to float"
      end
  | VNone | VList _ | VDict _ =>
      raise Exn.TypeError "float() argument must be a string or a real number"
  end.

(** [a / b] on integers: the double nearest to the exact quotient. *)
Definition int_truediv (a b : Z) : result Float.t :=
  match b with
  | Z0 => raise Exn.ZeroDivisionError "division by zero"
  | Zpos p =>
      if float_overflow_bound * Zpos p <=? Z.abs a
      then raise Exn.OverflowError "integer division result too large for a float"
      else Return (Float.of_quotient a p)
  | Zneg p =>
      if float_overflow_bound * Zpos p <=? Z.abs a
      then raise Exn.OverflowError "integer division result too large for a float"
      else Return (match a with
                   | Z0 => S754_zero true
                   | _ => Float.of_quotient (- a) p
                   end)
  end.

(** *** Equality

    [a == b]: numbers of all kinds compare by exact value, a NaN equals
    nothing; text, [None], lists and dicts compare with their own kind. *)

Inductive number :=
  | Finite (n : Z) (d : positive)     (* the rational n / d *)
  | Infinite (neg : bool)
  | NotANumber.

Definition number_of (v : value) : option number :=
  match v with
  | VBool b => Some (Finite (if b then 1 else 0) 1)
  | VInt z => Some (Finite z 1)
  | VFloat f =>
      Some match f with
           | S754_zero _ => Finite 0 1
           | S754_infinity s => Infinite s
           | S754_nan => NotANumber
           | S754_finite s m e =>
               let n := if s then Zneg m else Zpos m in
               match e with
               | Zneg k => Finite n (Pos.pow 2 k)
               | _ => Finite (n * 2 ^ e) 1
               end
           end
  | VDecimal d =>
      let n := if dec_sign d then - Z.of_N (dec_coefficient d)
               else Z.of_N (dec_coefficient d) in
      Some match dec_exponent d with
           | Zneg k => Finite n (Pos.pow 10 k)
           | e => Finite (n * 10 ^ e) 1
           end
  | _ => None
  end.

Definition number_eqb (x y : number) : bool :=
  match x, y with
  | Finite n d, Finite n' d' => n * Zpos d' =? n' * Zpos d
  | Infinite s, Infinite s' => Bool.eqb s s'
  | _, _ => false
  end.

Fixpoint eqb (a b : value) {struct a} : bool :=
  match number_of a, number_of b with
  | Some x, Some y => number_eqb x y
  | None, None =>
      match a, b with
      | VNone, VNone => true
      | VStr s, VStr s' => String.eqb s s'
      | VList l, VList l' =>
          (fix all2 (l : list value) (l' : list value) {struct l} : bool :=
             match l, l' with
             | [], [] => true
             | x :: xs, y :: ys => eqb x y && all2 xs ys
             | _, _ => false
             end) l l'
      | VDict d, VDict d' =>
          Nat.eqb (List.length d) (List.length d') &&
          forallb (fun '(k, v) =>
                     match dict_lookup d' k with
                     | Some v' => eqb v v'
                     | None => false
                     end) d
      | _, _ => false
      end
  | _, _ => false
  end.

(** [needle in haystack] for text. *)
Fixpoint contains (haystack needle : string) : bool :=
  String.prefix needle haystack ||
  match haystack with
  | EmptyString => false
  | String _ tl => contains tl needle
  end.

(** [key in v], for a text [key]: a key of a dict, an element of a list,
    a part of a text; other values are not containers. *)
Definition contains_key (key : string) (v : value) : result bool :=
  match v with
  | VDict d => Return match dict_lookup d key with Some _ => true | None => false end
  | VList l => Return (existsb (fun x => eqb x (VStr key)) l)
  | VStr s => Return (contains s key)
  | _ => raise Exn.TypeError "argument is not iterable"
  end.

End Py.

Import Py.

(** ** Record Normalizer: [safe_cast] and [fetch_fault_data] *)

(** A normalised record.  [timestamp] holds epoch seconds when the record
    leaves [fetch_fault_data]; the data frame later replaces the column by
    instants (see [to_datetime]).  [device_id] and [status] are stored as
    they were found, without conversion. *)
Record TelemetryRecord := mkRecord {
  device_id : value;
  timestamp : Z;
  temperature : Float.t;
  vibration : Float.t;
  status : value
}.

(** [safe_cast(val)]: a Decimal becomes a float, a text of digits an int,
    anything else stays. *)
Definition safe_cast (val : value) : result value :=
  match val with
  | VDecimal d => Return (VFloat (decimal_to_float d))
  | VStr s =>
      if isdigit s
      then z <- Py.int val ;; Return (VInt z)
      else Return val
  | _ => Return val
  end.

(** [payload.get(key) or item.get(key, default)] *)
Definition payload_or_item
    (payload : value) (item : dict) (key : string) (default : value)
    : result value :=
  v <- Py.get payload key ;;
  Return (Py.or v (dict_get item key default)).

(** [conv(safe_cast(payload.get(key) or item.get(key)))], for [conv]
    one of [int] and [float]. *)
Definition coerced {A} (conv : value -> result A)
    (payload : value) (item : dict) (key : string) : result A :=
  v <- payload_or_item payload item key VNone ;;
  v' <- safe_cast v ;;
  conv v'.

(** The body of the inner [try]: the record built from one item. *)
Definition make_record (item : dict) : result TelemetryRecord :=
  let payload := dict_get item "payload" (VDict []) in
  dev <- payload_or_item payload item "device_id" VNone ;;
  ts <- coerced Py.int payload item "timestamp" ;;
  temp <- coerced Py.float payload item "temperature" ;;
  vib <- coerced Py.float payload item "vibration" ;;
  st <- payload_or_item payload item "status" (VStr "UNKNOWN") ;;
  Return (mkRecord dev ts temp vib st).

(** One turn of the [for] loop: append the record, or [continue] when
    anything was raised. *)
Definition loop_step (records : list TelemetryRecord) (item : dict)
    : list TelemetryRecord :=
  match make_record item with
  | Return r => records ++ [r]
  | Raise _ => records
  end.

(** What [table.scan()] returns: a response that may carry ['Items']. *)
Record ScanResponse := mkScan { Items : option (list dict) }.

(** [fetch_fault_data()], given the outcome of [table.scan()]. *)
Definition fetch_fault_data (scan : result ScanResponse)
    : list TelemetryRecord :=
  match scan with
  | Return response =>
      let items := match Items response with Some l => l | None => [] end in
      fold_left loop_step items []
  | Raise _ => []
  end.

(** The scan that returned [items]. *)
Definition scanned (items : list dict) : result ScanResponse :=
  Return (mkScan (Some items)).

(** ** Time-Window Filter *)

(** A data frame: its rows, in row order. *)
Definition DataFrame := list TelemetryRecord.

(** Instants are integer microseconds since the epoch, the resolution of
    [datetime.now]; [pd.to_datetime(s, unit='s', utc=True)] is exact. *)
Definition to_datetime (seconds : Z) : Z := seconds * 1000000.

Definition timedelta_minutes (minutes : Z) : Z := minutes * 60 * 1000000.

(** [df['timestamp'] = pd.to_datetime(df['timestamp'], unit='s', utc=True)] *)
Definition with_datetime (r : TelemetryRecord) : TelemetryRecord :=
  mkRecord (device_id r) (to_datetime (timestamp r))
           (temperature r) (vibration r) (status r).

Definition cutoff_time (now time_window : Z) : Z :=
  now - timedelta_minutes time_window.

(** [df = df[df['timestamp'] >= cutoff_time]], from the normalised data. *)
Definition window_df (now time_window : Z) (data : list TelemetryRecord)
    : DataFrame :=
  filter (fun r => cutoff_time now time_window <=? timestamp r)
         (map with_datetime data).

(** The values the slider [st.sidebar.slider(..., 5, 240, 60)] can give. *)
Definition slider_value (time_window : Z) : Prop := 5 <= time_window <= 240.

(** [df[df['device_id'] == selected_device]] *)
Definition device_rows (df : DataFrame) (selected_device : value) : DataFrame :=
  filter (fun r => Py.eqb (device_id r) selected_device) df.

(** ** Completeness and Status Aggregator *)

Definition expected_count (time_window : Z) : Z := time_window.

Definition actual_count (filtered_df : DataFrame) : Z :=
  Z.of_nat (List.length filtered_df).

(** [round((actual_count / expected_count) * 100, 1)] *)
Definition completion_rate (actual expected : Z) : result Float.t :=
  ratio <- int_truediv actual expected ;;
  Return (Float.round (Float.mul ratio (Float.of_Z 100)) 1).

(** The specification's formula, [round(100 * actual / window, 1)],
    evaluated as Python evaluates it. *)
Definition completeness_formula (actual window : Z) : result Float.t :=
  q <- int_truediv (100 * actual) window ;;
  Return (Float.round q 1).

(** The double a one-decimal figure [tenths / 10] denotes. *)
Definition one_decimal (tenths : Z) : Float.t := Float.of_decimal tenths (-1).

(** ** Fault-Trend Bucketizer *)

(** [dt.floor('15min')] on an instant. *)
Definition floor_15min (t : Z) : Z := t / 900000000 * 900000000.

Definition is_fault (r : TelemetryRecord) : bool :=
  Py.eqb (status r) (VStr "FAULT").

(** [filtered_df[filtered_df['status'] == 'FAULT']] *)
Definition df_faults (filtered_df : DataFrame) : DataFrame :=
  filter is_fault filtered_df.

(** Count one more row under [bucket]; groups are kept in key order. *)
Fixpoint count_into (bucket : Z) (groups : list (Z * nat)) : list (Z * nat) :=
  match groups with
  | [] => [(bucket, 1%nat)]
  | (b, n) :: tl =>
      if bucket <? b then (bucket, 1%nat) :: groups
      else if bucket =? b then (b, S n) :: tl
      else (b, n) :: count_into bucket tl
  end.

(** [groupby(key).size()]: one (key, count) row per key, keys ascending. *)
Definition groupby_size (keys : list Z) : list (Z * nat) :=
  fold_left (fun groups k => count_into k groups) keys [].

(** [chart_data]: the fault count per 15-minute bucket. *)
Definition chart_data (filtered_df : DataFrame) : list (Z * nat) :=
  groupby_size (map (fun r => floor_15min (timestamp r)) (df_faults filtered_df)).

Inductive trend_view :=
  | LineChart (rows : list (Z * nat))
  | NoFaultEvents.        (* st.info("No FAULT events to display.") *)

(** The "Fault Trend" branch of the chart section. *)
Definition fault_trend (filtered_df : DataFrame) : trend_view :=
  match df_faults filtered_df with
  | [] => NoFaultEvents
  | _ => LineChart (chart_data filtered_df)
  end.

(** ** Device Health Snapshot: [latest] *)

(** Insert a row into rows held newest first. *)
Fixpoint insert_desc (r : TelemetryRecord) (rows : DataFrame) : DataFrame :=
  match rows with
  | [] => [r]
  | r' :: tl =>
      if timestamp r' <=? timestamp r then r :: rows
      else r' :: insert_desc r tl
  end.

(** [sort_values(by='timestamp', ascending=False)]; rows with the same
    timestamp keep their order. *)
Definition sort_values_desc (df : DataFrame) : DataFrame :=
  fold_right insert_desc [] df.

(** [df.iloc[0]] and [df.iloc[-1]] *)
Definition iloc_first (df : DataFrame) : result TelemetryRecord :=
  match df with
  | r :: _ => Return r
  | [] => raise Exn.IndexError "single positional indexer is out-of-bounds"
  end.

Definition iloc_last (df : DataFrame) : result TelemetryRecord :=
  iloc_first (rev df).

(** [latest = filtered_df.sort_values(by='timestamp', ascending=False).iloc[0]] *)
Definition latest (filtered_df : DataFrame) : result TelemetryRecord :=
  iloc_first (sort_values_desc filtered_df).

(** ** Inference Client Adapter *)

(** An HTTP response: its status code and what its body parses to as
    JSON, if it parses. *)
Record Response := mkResponse {
  status_code : Z;
  body_json : option value
}.

(** [response.raise_for_status()] *)
Definition raise_for_status (response : Response) : result unit :=
  if (400 <=? status_code response) && (status_code response <? 600)
  then raise Exn.HTTPError "Client or Server Error"
  else Return tt.

(** [response.json()]: [requests] raises its own [JSONDecodeError]. *)
Definition json (response : Response) : result value :=
  match body_json response with
  | Some v => Return v
  | None => raise Exn.RequestsJSONDecodeError "Expecting value"
  end.

Definition endpoint : string :=
  "https://oh7n7tfwa2kiy2gpxgpjcdrz6q0cpdox.lambda-url.eu-north-1.on.aws/".

(** The transport: [requests.post(url, json=payload)] either raises or
    returns a response. *)
Definition Transport := string -> value -> result Response.

(** The [try] block of [get_prediction]. *)
Definition get_prediction_try (post : Transport) (device_id temp vib : value)
    : result value :=
  let payload := VDict [("device_id", device_id);
                        ("temperature", temp);
                        ("vibration", vib)] in
  response <- post endpoint payload ;;
  _ <- raise_for_status response ;;
  result <- json response ;;
  has_prediction <- contains_key "prediction" result ;;
  if has_prediction then Return result
  else Return (VDict [("error", VStr "Missing 'prediction' key in Lambda response");
                      ("raw", result)]).

(** [get_prediction(device_id, temp, vib)]: the [except] clauses are tried
    in the order they are written. *)
Definition get_prediction (post : Transport) (device_id temp vib : value)
    : result value :=
  match get_prediction_try post device_id temp vib with
  | Return v => Return v
  | Raise e =>
      if Exn.isinstance e Exn.RequestException
      then Return (VDict [("error", VStr ("HTTP error: " ++ Exn.message e))])
      else if Exn.isinstance e Exn.ValueError
      then Return (VDict [("error", VStr ("JSON decoding failed: " ++ Exn.message e))])
      else Raise e
  end.

(** The text under ["error"] starts with [tag]. *)
Definition error_tagged (tag : string) (v : value) : bool :=
  match v with
  | VDict d =>
      match dict_lookup d "error" with
      | Some (VStr msg) => String.prefix tag msg
      | _ => false
      end
  | _ => false
  end.

(** [selected_data = df[df["device_id"] == selected_device].iloc[-1]] *)
Definition selected_data (df : DataFrame) (selected_device : value)
    : result TelemetryRecord :=
  iloc_last (device_rows df selected_device).

(** The call the inference panel makes for the selected device. *)
Definition run_inference (post : Transport) (df : DataFrame)
    (selected_device : value) : result value :=
  row <- selected_data df selected_device ;;
  get_prediction post selected_device
                 (VFloat (temperature row)) (VFloat (vibration row)).

(** ** Views used by the statements *)

(** The payload of an item: [item.get("payload", {})]. *)
Definition payload_of (item : dict) : value := dict_get item "payload" (VDict []).

(** The three numeric fields of an item, as [make_record] computes them. *)
Definition timestamp_of (item : dict) : result Z :=
  coerced Py.int (payload_of item) item "timestamp".
Definition temperature_of (item : dict) : result Float.t :=
  coerced Py.float (payload_of item) item "temperature".
Definition vibration_of (item : dict) : result Float.t :=
  coerced Py.float (payload_of item) item "vibration".

(** An item one of whose numeric fields is missing or does not convert. *)
Definition malformed (item : dict) : Prop :=
  raises (timestamp_of item) \/ raises (temperature_of item) \/
  raises (vibration_of item).

(** An item whose three numeric fields all convert. *)
Definition well_formed (item : dict) : Prop :=
  returns (timestamp_of item) /\ returns (temperature_of item) /\
  returns (vibration_of item).

(** The value the fallback rule selects when the payload is the mapping
    [payload]: the payload's entry when it is there and true, the
    top-level entry (or the default) otherwise. *)
Definition resolved (payload item : dict) (key : string) (default : value)
    : value :=
  match dict_lookup payload key with
  | Some v => if truthy v then v else dict_get item key default
  | None => dict_get item key default
  end.

(** The records an item contributes to the output. *)
Definition contribution (item : dict) : list TelemetryRecord :=
  match make_record item with
  | Return r => [r]
  | Raise _ => []
  end.

(** *** Sample data *)

Definition dec (n : Z) (e : Z) : value :=
  VDecimal (mkDecimal (n <? 0) (Z.to_N (Z.abs n)) e).

(** A payload reporting 0 degrees next to a top-level reading of 55. *)
Definition frozen_payload : dict :=
  [("device_id", VStr "pump-1"); ("timestamp", dec 1700000000 0);
   ("temperature", dec 0 0); ("vibration", dec 5 (-2));
   ("status", VStr "OK")].

Definition frozen_item : dict :=
  [("payload", VDict frozen_payload); ("temperature", dec 55 0)].

(** An item stamped five seconds before the epoch. *)
Definition early_item : dict :=
  [("device_id", VStr "pump-1"); ("timestamp", dec (-5) 0);
   ("temperature", dec 215 (-1)); ("vibration", dec 5 (-2));
   ("status", VStr "OK")].

Definition good_item : dict :=
  [("device_id", VStr "pump-1"); ("timestamp", VStr "1700000000");
   ("temperature", dec 215 (-1)); ("vibration", VStr "0.05");
   ("status", VStr "OK")].

(** An item without a timestamp. *)
Definition unstamped_item : dict :=
  [("device_id", VStr "pump-2"); ("temperature", dec 30 0);
   ("vibration", dec 1 (-1))].

(** The count recorded under [bucket], 0 when there is no such row. *)
Fixpoint count_under (bucket : Z) (groups : list (Z * nat)) : nat :=
  match groups with
  | [] => 0%nat
  | (b, n) :: tl =>
      ((if (b =? bucket)%Z then n else 0) + count_under bucket tl)%nat
  end.

(** Groups in strictly ascending key order, none of them empty. *)
Definition well_grouped (groups : list (Z * nat)) : Prop :=
  StronglySorted Z.lt (map fst groups) /\
  Forall (fun g => (0 < snd g)%nat) groups.

(** The number of rows of [df] whose timestamp falls in [bucket]. *)
Definition rows_in_bucket (bucket : Z) (df : DataFrame) : nat :=
  List.length (filter (fun r => floor_15min (timestamp r) =? bucket) df).

Definition fault_at (seconds : Z) : TelemetryRecord :=
  mkRecord (VStr "pump-1") seconds (Float.of_Z 80)
           (Float.of_decimal 15 (-2)) (VStr "FAULT").

Definition ok_at (seconds : Z) : TelemetryRecord :=
  mkRecord (VStr "pump-1") seconds (Float.of_Z 40)
           (Float.of_decimal 5 (-2)) (VStr "OK").

(** Faults at 1000 s, 1100 s and 1800 s, with a healthy reading between. *)
Definition sample_window : DataFrame :=
  map with_datetime [fault_at 1000; ok_at 1050; fault_at 1100; fault_at 1800].

(** *** Checking the completeness figure over a range *)

(** [x] is the double of [tenths / 10], and [tenths / 10] is within 0.05
    of [100 * actual / w]. *)
Definition nearest_tenth (actual w tenths : Z) (x : Float.t) : bool :=
  Float.same x (one_decimal tenths) &&
  (2 * Z.abs (tenths * w - 1000 * actual) <=? w).

(** [100 * actual / w] lies halfway between two one-decimal figures. *)
Definition halfway (actual w : Z) : bool := 2 * ((1000 * actual) mod w) =? w.

Definition same_result (a b : result Float.t) : bool :=
  match a, b with
  | Return x, Return y => Float.same x y
  | _, _ => false
  end.

Definition completeness_checked (actual w : Z) : bool :=
  match completion_rate actual w with
  | Return x =>
      let t := 1000 * actual / w in
      (nearest_tenth actual w t x || nearest_tenth actual w (t + 1) x) &&
      (halfway actual w || same_result (completeness_formula actual w) (Return x))
  | Raise _ => false
  end.

(** Every window length from 1 to [max_window] and every record count from
    0 to [max_actual] passes the check. *)
Definition range_checked (max_actual max_window : nat) : bool :=
  forallb (fun w =>
             forallb (fun a => completeness_checked (Z.of_nat a) (Z.of_nat w))
                     (seq 0 (S max_actual)))
          (seq 1 max_window).

(** The largest record count the check below covers. *)
Definition checked_actual : nat := 240.

(** *** Sample exchanges with the endpoint *)

(** A server that answers 200 with a body that is not JSON. *)
Definition html_page : Transport :=
  fun _ _ => Return (mkResponse 200 None).

(** A server that answers 200 and sends the request back next to a
    prediction. *)
Definition echo : Transport :=
  fun _ payload =>
    Return (mkResponse 200 (Some (VDict [("prediction", VStr "Low Risk");
                                         ("request", payload)]))).

Definition reading (device : string) (seconds temp : Z) : dict :=
  [("device_id", VStr device); ("timestamp", dec seconds 0);
   ("temperature", dec temp 0); ("vibration", dec 5 (-2));
   ("status", VStr "OK")].

(** A scan that returns the newer reading of a device before the older. *)
Definition unordered_scan : list dict :=
  [reading "pump-1" 1700000200 90; reading "pump-1" 1700000100 20].

(** The frame of that scan, one hour window, 100 s after the last reading. *)
Definition unordered_df : DataFrame :=
  window_df (to_datetime 1700000300) 60
            (fetch_fault_data (scanned unordered_scan)).

(** ** Further parts of the script *)

From Stdlib Require Import Permutation.

(** [status_focus = ["OK", "WARNING", "FAULT"]] *)
Definition status_focus : list string := ["OK"; "WARNING"; "FAULT"].

(** [filtered_df[filtered_df["status"] == status].shape[0]] *)
Definition rows_with_status (filtered_df : DataFrame) (s : string) : nat :=
  List.length (filter (fun r => Py.eqb (status r) (VStr s)) filtered_df).

(** [status_counts]: the dict comprehension over [status_focus]. *)
Definition status_counts (filtered_df : DataFrame) : list (string * nat) :=
  map (fun s => (s, rows_with_status filtered_df s)) status_focus.

(** The row's status is one of the three the summary counts. *)
Definition in_focus (r : TelemetryRecord) : Prop :=
  exists s, In s status_focus /\ status r = VStr s.

(** The columns of the telemetry table:
    [[['timestamp', 'temperature', 'vibration', 'status']]]. *)
Definition table_columns (r : TelemetryRecord) : Z * Float.t * Float.t * value :=
  (timestamp r, temperature r, vibration r, status r).

(** [sorted_df]: the table rows, newest first. *)
Definition sorted_df (filtered_df : DataFrame)
    : list (Z * Float.t * Float.t * value) :=
  map table_columns (sort_values_desc filtered_df).

(** Newest first. *)
Definition newest_first (rows : DataFrame) : Prop :=
  StronglySorted (fun a b => timestamp b <= timestamp a) rows.

(** Insert a row into rows held oldest first. *)
Fixpoint insert_asc (r : TelemetryRecord) (rows : DataFrame) : DataFrame :=
  match rows with
  | [] => [r]
  | r' :: tl =>
      if timestamp r <=? timestamp r' then r :: rows
      else r' :: insert_asc r tl
  end.

(** [set_index('timestamp').sort_index()]; rows with the same timestamp
    keep their order. *)
Definition sort_index (df : DataFrame) : DataFrame :=
  fold_right insert_asc [] df.

(** The choices of the chart radio button. *)
Inductive chart_choice := Temperature | Vibration | FaultTrend.

(** What the chart section draws. *)
Inductive chart :=
  | Series (points : list (Z * Float.t))   (* st.line_chart of one column *)
  | Trend (view : trend_view).

(** [time_series[[chart_selection.lower()]]] *)
Definition time_series (column : TelemetryRecord -> Float.t)
    (filtered_df : DataFrame) : list (Z * Float.t) :=
  map (fun r => (timestamp r, column r)) (sort_index filtered_df).

(** Section 5, "Chart Over Time". *)
Definition chart_over_time (chart_selection : chart_choice)
    (filtered_df : DataFrame) : chart :=
  match chart_selection with
  | FaultTrend => Trend (fault_trend filtered_df)
  | Temperature => Series (time_series temperature filtered_df)
  | Vibration => Series (time_series vibration filtered_df)
  end.

(** The request body [get_prediction] sends. *)
Definition request_body (device_id temp vib : value) : value :=
  VDict [("device_id", device_id); ("temperature", temp); ("vibration", vib)].

(** A status code [raise_for_status] lets through. *)
Definition passes_status (response : Response) : Prop :=
  status_code response < 400 \/ 600 <= status_code response.

(** *** More sample data *)

(** Valid top-level fields next to a payload that is NULL. *)
Definition null_payload_item : dict :=
  ("payload", VNone) :: good_item.

(** A payload reporting no vibration at all, 0, and nothing at top level. *)
Definition still_item : dict :=
  [("payload", VDict [("device_id", VStr "pump-1");
                      ("timestamp", dec 1700000000 0);
                      ("temperature", dec 215 (-1));
                      ("vibration", dec 0 0)])].

(** A server that answers 200 with the JSON number 5. *)
Definition number_page : Transport :=
  fun _ _ => Return (mkResponse 200 (Some (VInt 5))).

(** A server that answers 503. *)
Definition unavailable : Transport :=
  fun _ _ => Return (mkResponse 503 None).

(** A server that answers 200 with a JSON object without a prediction. *)
Definition foo_bar : Transport :=
  fun _ _ => Return (mkResponse 200 (Some (VDict [("foo", VStr "bar")]))).

(** * Properties *)

(** ** The error monad *)

Lemma bind_return_inv {A B} (m : result A) (k : A -> result B) (b : B) :
  (x <- m ;; k x) = Return b -> exists a, m = Return a /\ k a = Return b.
Proof.
  destruct m as [a | e]; simpl; intros H; [exists a; auto | discriminate].
Qed.

Lemma raises_or_returns {A} (m : result A) : raises m \/ returns m.
Proof.
  destruct m as [a | e]; [right; exists a | left; exists e]; reflexivity.
Qed.

Lemma raises_not_returns {A} (m : result A) : raises m -> ~ returns m.
Proof.
  intros [e He] [a Ha]. rewrite He in Ha. discriminate.
Qed.

(** ** Record Normalizer *)

(** On a payload that is a mapping, the fallback expression computes
    [resolved]. *)
Lemma payload_or_item_resolved (payload item : dict) key default :
  payload_or_item (VDict payload) item key default
  = Return (resolved payload item key default).
Proof.
  unfold payload_or_item, resolved, Py.get, dict_get, Py.or. simpl.
  destruct (dict_lookup payload key) as [v |]; reflexivity.
Qed.

(** A payload without a [get] method fails every field. *)
Lemma payload_or_item_raises_all (payload : value) (item : dict) key default :
  raises (payload_or_item payload item key default) ->
  forall key' default', raises (payload_or_item payload item key' default').
Proof.
  intros [e He] key' default'. unfold payload_or_item, Py.get in *.
  destruct payload; simpl in *; try discriminate; eexists; reflexivity.
Qed.

Lemma coerced_returns_payload {A} (conv : value -> result A) payload item key :
  returns (coerced conv payload item key) ->
  forall key' default', returns (payload_or_item payload item key' default').
Proof.
  intros [a Ha] key' default'.
  destruct (raises_or_returns (payload_or_item payload item key' default'))
    as [Hr | Hr]; [| exact Hr].
  destruct (payload_or_item_raises_all _ _ _ _ Hr key VNone) as [e He].
  unfold coerced in Ha. rewrite He in Ha. discriminate.
Qed.

(** A missing value converts neither to an int nor to a float. *)
Lemma coerced_missing_int payload item key :
  payload_or_item payload item key VNone = Return VNone ->
  raises (coerced Py.int payload item key).
Proof.
  intros H. unfold coerced. rewrite H. simpl. eexists; reflexivity.
Qed.

Lemma coerced_missing_float payload item key :
  payload_or_item payload item key VNone = Return VNone ->
  raises (coerced Py.float payload item key).
Proof.
  intros H. unfold coerced. rewrite H. simpl. eexists; reflexivity.
Qed.

(** [make_record] returns exactly when the three numeric fields convert,
    and then the record holds the converted values. *)
Lemma make_record_returns (item : dict) (r : TelemetryRecord) :
  make_record item = Return r <->
  payload_or_item (payload_of item) item "device_id" VNone = Return (device_id r) /\
  timestamp_of item = Return (timestamp r) /\
  temperature_of item = Return (temperature r) /\
  vibration_of item = Return (vibration r) /\
  payload_or_item (payload_of item) item "status" (VStr "UNKNOWN")
    = Return (status r).
Proof.
  unfold make_record, timestamp_of, temperature_of, vibration_of, payload_of.
  set (payload := dict_get item "payload" (VDict [])).
  split.
  - intros H.
    apply bind_return_inv in H as (dev & Hdev & H).
    apply bind_return_inv in H as (ts & Hts & H).
    apply bind_return_inv in H as (temp & Htemp & H).
    apply bind_return_inv in H as (vib & Hvib & H).
    apply bind_return_inv in H as (st & Hst & H).
    injection H as <-. simpl. auto.
  - intros (Hdev & Hts & Htemp & Hvib & Hst).
    rewrite Hdev, Hts, Htemp, Hvib, Hst. simpl. destruct r; reflexivity.
Qed.

Lemma well_formed_returns (item : dict) :
  well_formed item -> returns (make_record item).
Proof.
  intros (Hts & Htemp & Hvib).
  destruct (coerced_returns_payload _ _ _ _ Hts "device_id" VNone) as [dev Hdev].
  destruct (coerced_returns_payload _ _ _ _ Hts "status" (VStr "UNKNOWN"))
    as [st Hst].
  destruct Hts as [ts Hts], Htemp as [temp Htemp], Hvib as [vib Hvib].
  exists (mkRecord dev ts temp vib st).
  apply make_record_returns; simpl; auto.
Qed.

Lemma malformed_raises (item : dict) :
  malformed item -> raises (make_record item).
Proof.
  intros H. destruct (raises_or_returns (make_record item)) as [Hr | [r Hr]];
    [exact Hr |].
  apply make_record_returns in Hr as (_ & Hts & Htemp & Hvib & _).
  destruct H as [H | [H | H]]; exfalso;
    eapply raises_not_returns; try exact H; eexists; eassumption.
Qed.

Lemma malformed_contribution (item : dict) :
  malformed item -> contribution item = [].
Proof.
  intros H. apply malformed_raises in H as [e He].
  unfold contribution. rewrite He. reflexivity.
Qed.

(** The loop appends, item by item, what each item contributes. *)
Lemma fold_loop_step (items : list dict) (records : list TelemetryRecord) :
  fold_left loop_step items records
  = (records ++ flat_map contribution items)%list.
Proof.
  revert records. induction items as [| item items IH]; intros records; simpl.
  - now rewrite app_nil_r.
  - rewrite IH. unfold loop_step, contribution.
    destruct (make_record item) as [r | e]; simpl.
    + now rewrite <- app_assoc.
    + reflexivity.
Qed.

Lemma fetch_fault_data_scanned (items : list dict) :
  fetch_fault_data (scanned items) = flat_map contribution items.
Proof.
  unfold fetch_fault_data, scanned. simpl. apply fold_loop_step.
Qed.

Lemma fetch_fault_data_app (xs ys : list dict) :
  fetch_fault_data (scanned (xs ++ ys)%list)
  = (fetch_fault_data (scanned xs) ++ fetch_fault_data (scanned ys))%list.
Proof.
  rewrite !fetch_fault_data_scanned. apply flat_map_app.
Qed.

Lemma in_fetch_fault_data (items : list dict) (r : TelemetryRecord) :
  In r (fetch_fault_data (scanned items)) <->
  exists item, In item items /\ make_record item = Return r.
Proof.
  rewrite fetch_fault_data_scanned, in_flat_map. unfold contribution.
  split; intros (item & Hin & H); exists item; split; auto.
  - destruct (make_record item) as [r' | e]; simpl in H; [| contradiction].
    destruct H as [-> | []]. reflexivity.
  - rewrite H. now left.
Qed.

(** C2, as the code has it.  For an item whose payload is a mapping,
    each field is taken from the payload when the payload holds a true
    value for it; when the payload's value is absent or false (None, zero,
    empty text) the top-level value is used, with "UNKNOWN" as the default
    status.  The record is built from the values so selected. *)
Theorem payload_first_when_true (item payload : dict)
    (Hpayload : dict_lookup item "payload" = Some (VDict payload)) :
  (forall key default v,
      dict_lookup payload key = Some v -> truthy v = true ->
      payload_or_item (payload_of item) item key default = Return v) /\
  (forall key default v,
      dict_lookup payload key = Some v -> truthy v = false ->
      payload_or_item (payload_of item) item key default
      = Return (dict_get item key default)) /\
  (forall key default,
      dict_lookup payload key = None ->
      payload_or_item (payload_of item) item key default
      = Return (dict_get item key default)) /\
  make_record item =
    (ts <- (v <- safe_cast (resolved payload item "timestamp" VNone) ;; Py.int v) ;;
     temp <- (v <- safe_cast (resolved payload item "temperature" VNone) ;; Py.float v) ;;
     vib <- (v <- safe_cast (resolved payload item "vibration" VNone) ;; Py.float v) ;;
     Return (mkRecord (resolved payload item "device_id" VNone) ts temp vib
                      (resolved payload item "status" (VStr "UNKNOWN")))).
Proof.
  assert (Hp : payload_of item = VDict payload).
  { unfold payload_of, dict_get. now rewrite Hpayload. }
  repeat split.
  - intros key default v Hv Ht. rewrite Hp, payload_or_item_resolved.
    unfold resolved. now rewrite Hv, Ht.
  - intros key default v Hv Ht. rewrite Hp, payload_or_item_resolved.
    unfold resolved. now rewrite Hv, Ht.
  - intros key default Hv. rewrite Hp, payload_or_item_resolved.
    unfold resolved. now rewrite Hv.
  - unfold make_record, coerced. fold (payload_of item). rewrite Hp.
    rewrite !payload_or_item_resolved. reflexivity.
Qed.

Lemma payload_first_when_true_witness :
  dict_lookup frozen_item "payload" = Some (VDict frozen_payload) /\
  payload_or_item (payload_of frozen_item) frozen_item "device_id" VNone
  = Return (VStr "pump-1").
Proof.
  split; [reflexivity |].
  apply (proj1 (payload_first_when_true frozen_item frozen_payload eq_refl));
    reflexivity.
Defined.

(** C2 fails as stated: the payload holds a temperature, 0, and the
    record carries the top-level temperature, 55. *)
Lemma payload_zero_temperature_replaced :
  dict_lookup frozen_item "payload" = Some (VDict frozen_payload) /\
  dict_lookup frozen_payload "temperature" = Some (dec 0 0) /\
  payload_or_item (payload_of frozen_item) frozen_item "temperature" VNone
  = Return (dec 55 0) /\
  fetch_fault_data (scanned [frozen_item])
  = [mkRecord (VStr "pump-1") 1700000000 (Float.of_Z 55)
              (Float.of_decimal 5 (-2)) (VStr "OK")].
Proof.
  repeat split; vm_compute; reflexivity.
Qed.

(** C4, as the code has it.  Every record of the output comes from an
    item of the scan whose timestamp converted to the record's integer
    timestamp (of either sign) and whose temperature and vibration
    converted to the record's floats; an item one of whose three
    conversions fails yields no record at all. *)
Theorem emitted_records_fully_converted (items : list dict) :
  (forall r, In r (fetch_fault_data (scanned items)) ->
     exists item, In item items /\
       timestamp_of item = Return (timestamp r) /\
       temperature_of item = Return (temperature r) /\
       vibration_of item = Return (vibration r)) /\
  (forall item, In item items -> malformed item ->
     contribution item = [] /\ forall r, make_record item <> Return r).
Proof.
  split.
  - intros r Hr. apply in_fetch_fault_data in Hr as (item & Hin & Hrec).
    exists item. apply make_record_returns in Hrec. tauto.
  - intros item _ Hbad. split; [now apply malformed_contribution |].
    intros r Hr. apply malformed_raises in Hbad as [e He].
    rewrite He in Hr. discriminate.
Qed.

Lemma emitted_records_fully_converted_witness :
  In unstamped_item [good_item; unstamped_item] /\
  malformed unstamped_item /\
  contribution unstamped_item = [].
Proof.
  assert (Hin : In unstamped_item [good_item; unstamped_item])
    by (right; left; reflexivity).
  assert (Hbad : malformed unstamped_item)
    by (left; eexists; vm_compute; reflexivity).
  split; [exact Hin | split; [exact Hbad |]].
  exact (proj1 (proj2 (emitted_records_fully_converted
                         [good_item; unstamped_item])
                      unstamped_item Hin Hbad)).
Defined.

(** C4 fails as stated: an item stamped -5 is emitted with the negative
    timestamp -5. *)
Lemma negative_timestamp_emitted :
  exists r, In r (fetch_fault_data (scanned [early_item])) /\
            timestamp r = -5 /\ timestamp r < 0.
Proof.
  eexists. split; [left; vm_compute; reflexivity |]. simpl. split; [reflexivity | lia].
Qed.

(** C7.  An item whose timestamp, temperature or vibration is missing
    after the fallback, or does not convert, adds nothing to the output;
    the records of the items before and after it are all there, in
    order, and every well-formed item of the batch has its record in the
    output. *)
Theorem malformed_item_skipped_siblings_kept
    (before after : list dict) (bad : dict) (Hbad : malformed bad) :
  fetch_fault_data (scanned (before ++ bad :: after)%list)
  = (fetch_fault_data (scanned before) ++ fetch_fault_data (scanned after))%list /\
  (forall good, In good (before ++ after)%list -> well_formed good ->
     exists r, make_record good = Return r /\
               In r (fetch_fault_data (scanned (before ++ bad :: after)%list))) /\
  (forall item,
     payload_or_item (payload_of item) item "timestamp" VNone = Return VNone \/
     payload_or_item (payload_of item) item "temperature" VNone = Return VNone \/
     payload_or_item (payload_of item) item "vibration" VNone = Return VNone ->
     malformed item).
Proof.
  assert (Heq : fetch_fault_data (scanned (before ++ bad :: after)%list)
                = (fetch_fault_data (scanned before)
                   ++ fetch_fault_data (scanned after))%list).
  { rewrite fetch_fault_data_app. f_equal.
    change (bad :: after) with ([bad] ++ after)%list.
    rewrite fetch_fault_data_app, (fetch_fault_data_scanned [bad]). simpl.
    now rewrite (malformed_contribution bad Hbad). }
  split; [exact Heq | split].
  - intros good Hin Hgood. destruct (well_formed_returns good Hgood) as [r Hr].
    exists r. split; [exact Hr |]. rewrite Heq, <- fetch_fault_data_app.
    apply in_fetch_fault_data. exists good. auto.
  - intros item [H | [H | H]]; unfold malformed.
    + left. now apply coerced_missing_int.
    + right; left. now apply coerced_missing_float.
    + right; right. now apply coerced_missing_float.
Qed.

Lemma malformed_item_skipped_siblings_kept_witness :
  malformed unstamped_item /\
  fetch_fault_data (scanned ([good_item] ++ unstamped_item :: [early_item])%list)
  = (fetch_fault_data (scanned [good_item])
     ++ fetch_fault_data (scanned [early_item]))%list.
Proof.
  assert (Hbad : malformed unstamped_item)
    by (left; eexists; vm_compute; reflexivity).
  split; [exact Hbad |].
  exact (proj1 (malformed_item_skipped_siblings_kept
                  [good_item] [early_item] unstamped_item Hbad)).
Defined.

(** ** Time-Window Filter *)



(** ** Fault-Trend Bucketizer *)

Lemma eqb_text (v : value) (s : string) :
  Py.eqb v (VStr s) = true <-> v = VStr s.
Proof.
  destruct v; simpl; try (split; [discriminate | discriminate]).
  rewrite String.eqb_eq. split; [intros -> | intros H; injection H]; auto.
Qed.

Lemma is_fault_iff (r : TelemetryRecord) :
  is_fault r = true <-> status r = VStr "FAULT".
Proof. apply eqb_text. Qed.

Lemma count_under_count_into (b k : Z) (groups : list (Z * nat)) :
  count_under b (count_into k groups)
  = ((if (k =? b)%Z then 1 else 0) + count_under b groups)%nat.
Proof.
  induction groups as [| [b0 n0] tl IH]; simpl.
  - lia.
  - destruct (k <? b0) eqn:Hlt; simpl.
    + reflexivity.
    + destruct (k =? b0) eqn:Heq; simpl.
      * apply Z.eqb_eq in Heq. subst b0.
        destruct (k =? b); lia.
      * rewrite IH. lia.
Qed.

Lemma count_under_groupby_size (b : Z) (keys : list Z) :
  count_under b (groupby_size keys)
  = List.length (filter (fun k => k =? b) keys).
Proof.
  unfold groupby_size.
  assert (H : forall groups,
             count_under b (fold_left (fun g k => count_into k g) keys groups)
             = (count_under b groups
                + List.length (filter (fun k => (k =? b)%Z) keys))%nat).
  { induction keys as [| k keys IH]; intros groups; simpl.
    - lia.
    - rewrite IH, count_under_count_into.
      destruct (k =? b); simpl; lia. }
  rewrite H. reflexivity.
Qed.

Lemma count_into_keys (k : Z) (groups : list (Z * nat)) (x : Z) :
  In x (map fst (count_into k groups)) <-> x = k \/ In x (map fst groups).
Proof.
  induction groups as [| [b0 n0] tl IH]; simpl.
  - intuition.
  - destruct (k <? b0) eqn:Hlt; simpl; [intuition |].
    destruct (k =? b0) eqn:Heq; simpl.
    + apply Z.eqb_eq in Heq. subst. intuition.
    + rewrite IH. intuition.
Qed.

Lemma count_into_well_grouped (k : Z) (groups : list (Z * nat)) :
  well_grouped groups -> well_grouped (count_into k groups).
Proof.
  intros [Hs Hp]. induction groups as [| [b0 n0] tl IH]; simpl.
  - split; repeat constructor.
  - simpl in Hs. apply StronglySorted_inv in Hs as [Hs Hhd].
    apply Forall_cons_iff in Hp as [Hp0 Hp].
    destruct (k <? b0) eqn:Hlt.
    + apply Z.ltb_lt in Hlt. split.
      * simpl. constructor.
        -- constructor; assumption.
        -- constructor; [exact Hlt |].
           eapply Forall_impl; [| exact Hhd]. simpl. intros; lia.
      * constructor; [simpl; lia | constructor; assumption].
    + apply Z.ltb_ge in Hlt. destruct (k =? b0) eqn:Heq.
      * split.
        -- simpl. constructor; assumption.
        -- constructor; [simpl; lia | assumption].
      * apply Z.eqb_neq in Heq. destruct (IH Hs Hp) as [IHs IHp]. split.
        -- simpl. constructor; [exact IHs |].
           apply Forall_forall. intros x Hx.
           apply count_into_keys in Hx as [-> | Hx]; [lia |].
           rewrite Forall_forall in Hhd. now apply Hhd.
        -- constructor; assumption.
Qed.

Lemma groupby_size_well_grouped (keys : list Z) :
  well_grouped (groupby_size keys).
Proof.
  unfold groupby_size.
  assert (H : forall groups, well_grouped groups ->
             well_grouped (fold_left (fun g k => count_into k g) keys groups)).
  { induction keys as [| k keys IH]; intros groups Hg; simpl; [exact Hg |].
    apply IH, count_into_well_grouped, Hg. }
  apply H. split; constructor.
Qed.

Lemma count_under_above (b : Z) (groups : list (Z * nat)) :
  Forall (fun k => b < k) (map fst groups) -> count_under b groups = 0%nat.
Proof.
  induction groups as [| [b0 n0] tl IH]; simpl; intros H; [reflexivity |].
  apply Forall_cons_iff in H as [Hlt H]. simpl in Hlt.
  rewrite (IH H). destruct (b0 =? b) eqn:Heq; [| reflexivity].
  apply Z.eqb_eq in Heq. lia.
Qed.

(** In well-grouped rows, a row [(b, n)] is there exactly when [n] is the
    positive count recorded under [b]. *)
Lemma well_grouped_row (groups : list (Z * nat)) (b : Z) (n : nat) :
  well_grouped groups ->
  (In (b, n) groups <-> (0 < n)%nat /\ count_under b groups = n).
Proof.
  intros [Hs Hp]. induction groups as [| [b0 n0] tl IH]; simpl.
  - split; [contradiction | lia].
  - simpl in Hs. apply StronglySorted_inv in Hs as [Hs Hhd].
    apply Forall_cons_iff in Hp as [Hp0 Hp]. simpl in Hp0.
    specialize (IH Hs Hp).
    destruct (b0 =? b) eqn:Heq.
    + apply Z.eqb_eq in Heq. subst b0.
      rewrite (count_under_above b tl Hhd). split.
      * intros [H | H].
        -- injection H as ->. lia.
        -- exfalso. rewrite Forall_forall in Hhd.
           specialize (Hhd b (in_map fst _ _ H)). lia.
      * intros [Hn H]. left. f_equal. lia.
    + apply Z.eqb_neq in Heq. simpl. rewrite <- IH. split.
      * intros [H | H]; [injection H as -> _; contradiction | exact H].
      * intros H. now right.
Qed.

Lemma list_sum_count_into (k : Z) (groups : list (Z * nat)) :
  list_sum (map snd (count_into k groups)) = S (list_sum (map snd groups)).
Proof.
  induction groups as [| [b0 n0] tl IH]; simpl; [reflexivity |].
  destruct (k <? b0); simpl; [reflexivity |].
  destruct (k =? b0); simpl; [reflexivity |]. rewrite IH. lia.
Qed.

Lemma list_sum_groupby_size (keys : list Z) :
  list_sum (map snd (groupby_size keys)) = List.length keys.
Proof.
  unfold groupby_size.
  assert (H : forall groups,
             list_sum (map snd (fold_left (fun g k => count_into k g) keys groups))
             = (list_sum (map snd groups) + List.length keys)%nat).
  { induction keys as [| k keys IH]; intros groups; simpl; [lia |].
    rewrite IH, list_sum_count_into. lia. }
  rewrite H. reflexivity.
Qed.

Lemma filter_map_length {A B} (f : A -> B) (p : B -> bool) (l : list A) :
  List.length (filter p (map f l))
  = List.length (filter (fun x => p (f x)) l).
Proof.
  induction l as [| x l IH]; simpl; [reflexivity |].
  destruct (p (f x)); simpl; now rewrite IH.
Qed.

Lemma chart_data_count (filtered_df : DataFrame) (b : Z) :
  count_under b (chart_data filtered_df)
  = rows_in_bucket b (df_faults filtered_df).
Proof.
  unfold chart_data, rows_in_bucket.
  rewrite count_under_groupby_size. apply filter_map_length.
Qed.

Lemma floor_15min_seconds (seconds : Z) :
  floor_15min (to_datetime seconds) = to_datetime (seconds / 900 * 900).
Proof.
  unfold floor_15min, to_datetime.
  change 900000000 with (900 * 1000000).
  rewrite Z.div_mul_cancel_r by lia. lia.
Qed.

Lemma chart_data_row (filtered_df : DataFrame) (b : Z) (n : nat) :
  In (b, n) (chart_data filtered_df) <->
  (0 < n)%nat /\ n = rows_in_bucket b (df_faults filtered_df).
Proof.
  rewrite (well_grouped_row (chart_data filtered_df) b n)
    by apply groupby_size_well_grouped.
  rewrite chart_data_count. intuition.
Qed.

(** C6.  The fault trend selects exactly the rows whose status is FAULT;
    its output has one row per 15-minute bucket that holds such a row,
    carrying the number of FAULT rows whose timestamp floors to that
    bucket, and the rows are in ascending bucket order.  The bucket of a
    timestamp of [s] seconds starts at [floor(s / 900) * 900] seconds.
    Faults at 1000 s, 1100 s and 1800 s give 2 under 900 s and 1 under
    1800 s.  Without any FAULT row the branch shows a notice instead. *)
Theorem fault_trend_counts_per_bucket (filtered_df : DataFrame) :
  (forall r, In r (df_faults filtered_df) <->
             In r filtered_df /\ status r = VStr "FAULT") /\
  (forall b n, In (b, n) (chart_data filtered_df) <->
               (0 < n)%nat /\ n = rows_in_bucket b (df_faults filtered_df)) /\
  StronglySorted Z.lt (map fst (chart_data filtered_df)) /\
  (forall seconds,
      floor_15min (to_datetime seconds) = to_datetime (seconds / 900 * 900)) /\
  (fault_trend filtered_df = LineChart (chart_data filtered_df) \/
   df_faults filtered_df = [] /\ fault_trend filtered_df = NoFaultEvents) /\
  chart_data sample_window
  = [(to_datetime 900, 2%nat); (to_datetime 1800, 1%nat)].
Proof.
  split; [| split; [| split; [| split; [| split]]]].
  - intros r. unfold df_faults. rewrite filter_In, is_fault_iff. reflexivity.
  - apply chart_data_row.
  - apply groupby_size_well_grouped.
  - apply floor_15min_seconds.
  - unfold fault_trend. destruct (df_faults filtered_df); auto.
  - vm_compute. reflexivity.
Qed.



(** ** Completeness and Status Aggregator *)

Lemma float_same_eq (x y : Float.t) : Float.same x y = true -> x = y.
Proof.
  destruct x, y; simpl; try discriminate; intros H.
  - apply Bool.eqb_prop in H. now subst.
  - apply Bool.eqb_prop in H. now subst.
  - reflexivity.
  - apply andb_prop in H as [H He]. apply andb_prop in H as [Hs Hm].
    apply Bool.eqb_prop in Hs. apply Pos.eqb_eq in Hm. apply Z.eqb_eq in He.
    now subst.
Qed.

Lemma same_result_eq (a : result Float.t) (x : Float.t) :
  same_result a (Return x) = true -> a = Return x.
Proof.
  destruct a as [y | e]; simpl; [| discriminate].
  intros H. apply float_same_eq in H. now subst.
Qed.

Lemma completeness_checked_sound (actual w : Z) :
  completeness_checked actual w = true ->
  exists tenths,
    completion_rate actual w = Return (one_decimal tenths) /\
    2 * Z.abs (tenths * w - 1000 * actual) <= w /\
    (2 * ((1000 * actual) mod w) <> w ->
     completeness_formula actual w = completion_rate actual w).
Proof.
  unfold completeness_checked.
  destruct (completion_rate actual w) as [x | e]; [| discriminate].
  intros H. apply andb_prop in H as [Hnear Hform].
  assert (Hf : 2 * ((1000 * actual) mod w) <> w ->
               completeness_formula actual w = Return x).
  { intros Hne. apply orb_prop in Hform as [Ht | Hs].
    - unfold halfway in Ht. apply Z.eqb_eq in Ht. contradiction.
    - now apply same_result_eq. }
  apply orb_prop in Hnear as [Hn | Hn]; unfold nearest_tenth in Hn;
    apply andb_prop in Hn as [Hx Hd];
    apply float_same_eq in Hx; apply Z.leb_le in Hd;
    eexists; (split; [rewrite Hx; reflexivity | split; [exact Hd | exact Hf]]).
Qed.

Lemma range_checked_covers (max_actual max_window : nat) (actual w : Z) :
  range_checked max_actual max_window = true ->
  1 <= w <= Z.of_nat max_window -> 0 <= actual <= Z.of_nat max_actual ->
  completeness_checked actual w = true.
Proof.
  unfold range_checked. intros H Hw Ha.
  rewrite forallb_forall in H.
  specialize (H (Z.to_nat w)). rewrite in_seq in H.
  assert (Hw' : (1 <= Z.to_nat w < 1 + max_window)%nat) by lia.
  specialize (H Hw'). rewrite forallb_forall in H.
  specialize (H (Z.to_nat actual)). rewrite in_seq in H.
  assert (Ha' : (0 <= Z.to_nat actual < 0 + S max_actual)%nat) by lia.
  specialize (H Ha'). now rewrite !Z2Nat.id in H by lia.
Qed.

Lemma range_checked_holds : range_checked checked_actual 240 = true.
Proof. vm_compute. reflexivity. Qed.




(** C9, as the code has it.  The computation has no guard of its own: a
    window length of 0 raises ZeroDivisionError, and that is the only way
    it does.  It is the slider that keeps 0 out: for every window length
    the slider can give, and a frame of fewer than 2^63 rows, the
    computation returns a figure. *)
Theorem completion_rate_relies_on_slider (filtered_df : DataFrame) (w : Z)
    (Hw : slider_value w) (Hrows : actual_count filtered_df < 2 ^ 63) :
  returns (completion_rate (actual_count filtered_df) (expected_count w)) /\
  completion_rate (actual_count filtered_df) (expected_count 0)
  = raise Exn.ZeroDivisionError "division by zero" /\
  (forall a e,
      completion_rate a e = raise Exn.ZeroDivisionError "division by zero"
      <-> e = 0).
Proof.
  unfold expected_count.
  assert (Ha : 0 <= actual_count filtered_df) by (unfold actual_count; lia).
  generalize dependent (actual_count filtered_df). intros actual Hrows Ha.
  split; [| split; [reflexivity |]].
  - unfold slider_value in Hw. unfold completion_rate, int_truediv.
    destruct w as [| p | p]; try lia.
    assert (Hb : 2 ^ 63 <= float_overflow_bound) by (vm_compute; discriminate).
    assert (Hlt : (float_overflow_bound * Z.pos p <=? Z.abs actual) = false).
    { apply Z.leb_gt. rewrite Z.abs_eq by lia.
      generalize dependent float_overflow_bound. intros B HB.
      change (2 ^ 63) with 9223372036854775808 in *. nia. }
    rewrite Hlt. simpl. eexists. reflexivity.
  - intros a e. split.
    + unfold completion_rate, int_truediv.
      destruct e as [| p | p]; [reflexivity | |];
        destruct (float_overflow_bound * Z.pos p <=? Z.abs a);
        simpl; discriminate.
    + intros ->. reflexivity.
Qed.

Lemma completion_rate_relies_on_slider_witness :
  slider_value 60 /\ actual_count sample_window < 2 ^ 63 /\
  returns (completion_rate (actual_count sample_window) (expected_count 60)).
Proof.
  assert (Hw : slider_value 60) by (unfold slider_value; lia).
  assert (Hrows : actual_count sample_window < 2 ^ 63) by reflexivity.
  split; [exact Hw | split; [exact Hrows |]].
  exact (proj1 (completion_rate_relies_on_slider sample_window 60 Hw Hrows)).
Defined.

(** C9 fails as stated: at window length 0 the computation divides by
    zero and returns nothing. *)
Lemma completion_rate_zero_window_raises :
  completion_rate 45 0 = raise Exn.ZeroDivisionError "division by zero" /\
  ~ returns (completion_rate 45 0).
Proof.
  split; [reflexivity |]. intros [x Hx]. discriminate.
Qed.

(** ** Inference Client Adapter *)

(** C3 on the code.  A response with status 200 whose body is not JSON
    makes [response.json()] raise the [requests] JSON error, which is a
    [RequestException]: the first [except] clause takes it, and the
    result is tagged "HTTP error", not "JSON decoding failed". *)
Theorem unparseable_body_tagged_http_error (device temp vib : value) :
  get_prediction html_page device temp vib
  = Return (VDict [("error", VStr "HTTP error: Expecting value")]) /\
  (forall v, get_prediction html_page device temp vib = Return v ->
             error_tagged "HTTP error" v = true /\
             error_tagged "JSON decoding failed" v = false).
Proof.
  assert (H : get_prediction html_page device temp vib
              = Return (VDict [("error", VStr "HTTP error: Expecting value")]))
    by reflexivity.
  split; [exact H |].
  intros v Hv. rewrite H in Hv. injection Hv as <-. split; reflexivity.
Qed.

(** [selected_data] is the last row of the device in row order. *)
Lemma selected_data_last (df : DataFrame) (device : value) (r : TelemetryRecord) :
  selected_data df device = Return r <->
  exists before, device_rows df device = (before ++ [r])%list.
Proof.
  unfold selected_data, iloc_last, iloc_first.
  destruct (rev (device_rows df device)) as [| r' tl] eqn:Hrev.
  - split; [discriminate |]. intros [before Hb].
    rewrite Hb, rev_app_distr in Hrev. discriminate.
  - apply (f_equal (@rev _)) in Hrev. rewrite rev_involutive in Hrev.
    simpl in Hrev. rewrite Hrev. split.
    + intros H. injection H as ->. eauto.
    + intros [before Hb]. apply app_inj_tail in Hb as [_ ->]. reflexivity.
Qed.

(** C8 on the code.  When the scan returns the newer reading of a device
    before the older one, the inference call is made with the older
    reading (20 degrees, taken at ...100 s), the last row of the device,
    while [latest], which sorts by timestamp, is the newer reading (90
    degrees, taken at ...200 s). *)
Theorem selected_data_is_last_row_not_latest :
  selected_data unordered_df (VStr "pump-1")
  = Return (mkRecord (VStr "pump-1") (to_datetime 1700000100) (Float.of_Z 20)
                     (Float.of_decimal 5 (-2)) (VStr "OK")) /\
  latest (device_rows unordered_df (VStr "pump-1"))
  = Return (mkRecord (VStr "pump-1") (to_datetime 1700000200) (Float.of_Z 90)
                     (Float.of_decimal 5 (-2)) (VStr "OK")) /\
  run_inference echo unordered_df (VStr "pump-1")
  = Return (VDict [("prediction", VStr "Low Risk");
                   ("request",
                    VDict [("device_id", VStr "pump-1");
                           ("temperature", VFloat (Float.of_Z 20));
                           ("vibration", VFloat (Float.of_decimal 5 (-2)))])]).
Proof.
  repeat split; vm_compute; reflexivity.
Qed.

(** * Further properties *)

(** ** Further properties: the time window *)

Lemma filter_filter {A} (p q : A -> bool) (l : list A) :
  filter p (filter q l) = filter (fun x => p x && q x) l.
Proof.
  induction l as [| x l IH]; simpl; [reflexivity |].
  destruct (q x); simpl; [destruct (p x); simpl; now rewrite IH |].
  rewrite andb_false_r. exact IH.
Qed.

Lemma filter_length_le {A} (p : A -> bool) (l : list A) :
  (List.length (filter p l) <= List.length l)%nat.
Proof.
  induction l as [| x l IH]; simpl; [lia |]. destruct (p x); simpl; lia.
Qed.




(** ** Further properties: the normalizer *)



(** X4.  When every item of the scan is well-formed, the output has one
    record per item, in scan order: the i-th record is the record of the
    i-th item. *)
Theorem well_formed_scan_kept_in_order (items : list dict)
    (Hall : Forall well_formed items) :
  Forall2 (fun item r => make_record item = Return r)
          items (fetch_fault_data (scanned items)).
Proof.
  rewrite fetch_fault_data_scanned.
  induction Hall as [| item items Hitem _ IH]; simpl; [constructor |].
  destruct (well_formed_returns item Hitem) as [r Hr].
  unfold contribution at 1. rewrite Hr. simpl. constructor; assumption.
Qed.

Lemma well_formed_scan_kept_in_order_witness :
  Forall well_formed [good_item; early_item] /\
  Forall2 (fun item r => make_record item = Return r)
          [good_item; early_item]
          (fetch_fault_data (scanned [good_item; early_item])).
Proof.
  assert (Hall : Forall well_formed [good_item; early_item]).
  { repeat constructor; eexists; vm_compute; reflexivity. }
  split; [exact Hall |].
  exact (well_formed_scan_kept_in_order [good_item; early_item] Hall).
Defined.

(** X5.  An item whose "payload" entry is not a mapping (NULL, a text, a
    number, a list) is dropped with an AttributeError, whatever its
    top-level fields hold. *)
Theorem payload_not_a_mapping_dropped (item : dict) (v : value)
    (Hpayload : dict_lookup item "payload" = Some v)
    (Hnot : forall d, v <> VDict d) :
  make_record item = raise Exn.AttributeError "object has no attribute 'get'" /\
  contribution item = [] /\
  forall before after,
    fetch_fault_data (scanned (before ++ item :: after)%list)
    = fetch_fault_data (scanned (before ++ after)%list).
Proof.
  assert (Hrec : make_record item
                 = raise Exn.AttributeError "object has no attribute 'get'").
  { unfold make_record, dict_get. rewrite Hpayload.
    destruct v; try reflexivity. exfalso. now apply (Hnot d). }
  assert (Hc : contribution item = []).
  { unfold contribution. now rewrite Hrec. }
  split; [exact Hrec | split; [exact Hc |]].
  intros before after. rewrite !fetch_fault_data_scanned, !flat_map_app.
  simpl. now rewrite Hc.
Qed.

Lemma payload_not_a_mapping_dropped_witness :
  dict_lookup null_payload_item "payload" = Some VNone /\
  (forall d, VNone <> VDict d) /\
  contribution null_payload_item = [] /\
  returns (make_record good_item).
Proof.
  assert (Hp : dict_lookup null_payload_item "payload" = Some VNone)
    by reflexivity.
  assert (Hn : forall d, VNone <> VDict d) by (intros d; discriminate).
  split; [exact Hp | split; [exact Hn | split]].
  - exact (proj1 (proj2 (payload_not_a_mapping_dropped null_payload_item VNone Hp Hn))).
  - eexists. vm_compute. reflexivity.
Defined.

(** X6.  A reading that is present in the payload but false (0, empty
    text), with no top-level entry to fall back on, counts as missing:
    when this happens to the timestamp, the temperature or the vibration,
    the item is dropped. *)
Theorem false_payload_reading_dropped (item payload : dict) (key : string)
    (v : value)
    (Hpayload : dict_lookup item "payload" = Some (VDict payload))
    (Hkey : In key ["timestamp"; "temperature"; "vibration"])
    (Hv : dict_lookup payload key = Some v)
    (Hfalse : truthy v = false)
    (Htop : dict_lookup item key = None) :
  malformed item /\ contribution item = [].
Proof.
  assert (Hp : payload_of item = VDict payload).
  { unfold payload_of, dict_get. now rewrite Hpayload. }
  assert (Hres : payload_or_item (payload_of item) item key VNone = Return VNone).
  { rewrite Hp, payload_or_item_resolved. unfold resolved, dict_get.
    now rewrite Hv, Hfalse, Htop. }
  assert (Hbad : malformed item).
  { unfold malformed, timestamp_of, temperature_of, vibration_of.
    destruct Hkey as [<- | [<- | [<- | []]]].
    - left. now apply coerced_missing_int.
    - right; left. now apply coerced_missing_float.
    - right; right. now apply coerced_missing_float. }
  split; [exact Hbad | now apply malformed_contribution].
Qed.

Lemma false_payload_reading_dropped_witness :
  contribution still_item = [].
Proof.
  refine (proj2 (false_payload_reading_dropped still_item _ "vibration" (dec 0 0)
                   eq_refl _ eq_refl eq_refl eq_refl)).
  right; right; left; reflexivity.
Defined.

(** X7.  An item without a "payload" entry is read from its top-level
    fields alone; its record carries the top-level device id, and the
    top-level status or, when there is none, "UNKNOWN". *)
Theorem item_without_payload_read_top_level (item : dict)
    (Hnone : dict_lookup item "payload" = None) :
  (forall key default,
      payload_or_item (payload_of item) item key default
      = Return (dict_get item key default)) /\
  (forall r, make_record item = Return r ->
      device_id r = dict_get item "device_id" VNone /\
      status r = dict_get item "status" (VStr "UNKNOWN")) /\
  (forall r, make_record item = Return r ->
      dict_lookup item "status" = None -> status r = VStr "UNKNOWN").
Proof.
  assert (Hp : payload_of item = VDict []).
  { unfold payload_of, dict_get. now rewrite Hnone. }
  assert (Hget : forall key default,
             payload_or_item (payload_of item) item key default
             = Return (dict_get item key default)).
  { intros key default. rewrite Hp, payload_or_item_resolved. reflexivity. }
  assert (Hfields : forall r, make_record item = Return r ->
             device_id r = dict_get item "device_id" VNone /\
             status r = dict_get item "status" (VStr "UNKNOWN")).
  { intros r Hr. apply make_record_returns in Hr as (Hdev & _ & _ & _ & Hst).
    rewrite Hget in Hdev, Hst. injection Hdev as <-. injection Hst as <-. auto. }
  split; [exact Hget | split; [exact Hfields |]].
  intros r Hr Hst. destruct (Hfields r Hr) as [_ ->].
  unfold dict_get. now rewrite Hst.
Qed.

Lemma item_without_payload_read_top_level_witness :
  dict_lookup unstamped_item "payload" = None /\
  payload_or_item (payload_of unstamped_item) unstamped_item "status" (VStr "UNKNOWN")
  = Return (VStr "UNKNOWN").
Proof.
  assert (Hnone : dict_lookup unstamped_item "payload" = None) by reflexivity.
  split; [exact Hnone |].
  exact (proj1 (item_without_payload_read_top_level unstamped_item Hnone)
               "status" (VStr "UNKNOWN")).
Defined.
(** ** Further properties: [safe_cast] *)

Lemma lstrip_no_space (cs : list ascii) :
  Forall (fun c => is_space c = false) cs -> lstrip cs = cs.
Proof.
  intros H. destruct H as [| c cs Hc _]; simpl; [reflexivity |].
  now rewrite Hc.
Qed.

Lemma digit_not_space (c : ascii) : is_digit c = true -> is_space c = false.
Proof.
  unfold is_digit, is_space. intros H.
  apply andb_prop in H as [H1 H2]. apply Z.leb_le in H1, H2.
  apply orb_false_intro; apply andb_false_iff; right; apply Z.leb_gt; lia.
Qed.

Lemma strip_digits (cs : list ascii) :
  forallb is_digit cs = true -> strip cs = cs.
Proof.
  intros H. rewrite forallb_forall in H.
  assert (Hs : Forall (fun c => is_space c = false) cs).
  { apply Forall_forall. intros c Hc. apply digit_not_space, H, Hc. }
  unfold strip. rewrite (lstrip_no_space cs Hs).
  rewrite lstrip_no_space by (apply Forall_rev; exact Hs).
  apply rev_involutive.
Qed.

Lemma digit_run_digits (cs : list ascii) :
  forallb is_digit cs = true -> digit_run cs = (cs, []).
Proof.
  induction cs as [| c tl IH]; simpl; [reflexivity |].
  intros H. apply andb_prop in H as [Hc Htl]. rewrite Hc.
  destruct tl as [| c' tl'].
  - reflexivity.
  - assert (Hc' : is_digit c' = true) by (simpl in Htl; now apply andb_prop in Htl).
    rewrite (IH Htl).
    destruct (Ascii.eqb c' "_") eqn:Hu.
    + apply Ascii.eqb_eq in Hu. subst c'. discriminate.
    + destruct c' as [[] [] [] [] [] [] [] []]; try reflexivity; discriminate.
Qed.

Lemma take_sign_digit (c : ascii) (tl : list ascii) :
  is_digit c = true -> take_sign (c :: tl) = (false, c :: tl).
Proof.
  intros H. destruct c as [[] [] [] [] [] [] [] []]; try reflexivity; discriminate.
Qed.

Lemma digits_value_nonneg (ds : list ascii) :
  forallb is_digit ds = true -> 0 <= digits_value ds.
Proof.
  unfold digits_value.
  assert (H : forall acc, 0 <= acc -> forallb is_digit ds = true ->
             0 <= fold_left (fun a c => a * 10 + digit_val c) ds acc).
  { induction ds as [| c ds IH]; intros acc Hacc Hd; simpl; [exact Hacc |].
    simpl in Hd. apply andb_prop in Hd as [Hc Hd]. apply IH; [| exact Hd].
    unfold is_digit in Hc. apply andb_prop in Hc as [Hc _].
    apply Z.leb_le in Hc. unfold digit_val. lia. }
  apply H. lia.
Qed.

(** X8.  A text made of the digits 0-9 alone, within the 4300 digits
    CPython converts by default, is cast to the integer it spells, which
    is never negative; as a timestamp it is taken as that integer. *)
Theorem digit_text_cast_to_natural (s : string)
    (Hdigits : isdigit s = true) (Hlen : (String.length s <= 4300)%nat) :
  safe_cast (VStr s) = Return (VInt (digits_value (list_ascii_of_string s))) /\
  0 <= digits_value (list_ascii_of_string s) /\
  (v <- safe_cast (VStr s) ;; Py.int v)
  = Return (digits_value (list_ascii_of_string s)).
Proof.
  unfold isdigit in Hdigits.
  destruct (list_ascii_of_string s) as [| c cs] eqn:Hs; [discriminate |].
  assert (Hc : is_digit c = true) by (simpl in Hdigits; now apply andb_prop in Hdigits).
  assert (Hparse : parse_int s = Some (digits_value (c :: cs))).
  { unfold parse_int. rewrite Hs, (strip_digits _ Hdigits).
    rewrite (take_sign_digit c cs Hc), (digit_run_digits _ Hdigits). reflexivity. }
  assert (Hcast : safe_cast (VStr s) = Return (VInt (digits_value (c :: cs)))).
  { unfold safe_cast, isdigit. rewrite Hs, Hdigits. simpl. now rewrite Hparse. }
  split; [exact Hcast | split].
  - now apply digits_value_nonneg.
  - rewrite Hcast. reflexivity.
Qed.

Lemma digit_text_cast_to_natural_witness :
  isdigit "1700000000" = true /\
  safe_cast (VStr "1700000000") = Return (VInt 1700000000).
Proof.
  assert (H : isdigit "1700000000" = true) by reflexivity.
  assert (Hlen : (String.length "1700000000" <= 4300)%nat) by (simpl; lia).
  split; [exact H |].
  exact (proj1 (digit_text_cast_to_natural "1700000000" H Hlen)).
Defined.

(** ** Further properties: the status summary *)

Lemma status_sum_counts_focus (filtered_df : DataFrame) :
  list_sum (map snd (status_counts filtered_df))
  = List.length
      (filter (fun r => Py.eqb (status r) (VStr "OK")
                        || Py.eqb (status r) (VStr "WARNING")
                        || Py.eqb (status r) (VStr "FAULT")) filtered_df).
Proof.
  unfold status_counts, status_focus, rows_with_status. simpl.
  induction filtered_df as [| r df IH]; simpl; [reflexivity |].
  destruct (Py.eqb (status r) (VStr "OK")) eqn:Hok.
  - apply eqb_text in Hok. rewrite Hok. simpl. simpl in IH. lia.
  - destruct (Py.eqb (status r) (VStr "WARNING")) eqn:Hw.
    + apply eqb_text in Hw. rewrite Hw. simpl. simpl in IH. lia.
    + destruct (Py.eqb (status r) (VStr "FAULT")); simpl; simpl in IH; lia.
Qed.

Lemma filter_length_all {A} (p : A -> bool) (l : list A) :
  List.length (filter p l) = List.length l <-> Forall (fun x => p x = true) l.
Proof.
  induction l as [| x l IH]; simpl.
  - split; constructor.
  - pose proof (filter_length_le p l) as Hle. destruct (p x) eqn:Hp; simpl.
    + split.
      * intros Hlen. constructor; [exact Hp | apply IH; lia].
      * intros Hall. apply Forall_cons_iff in Hall as [_ Hall].
        apply IH in Hall. lia.
    + split; [lia |]. intros Hall. apply Forall_cons_iff in Hall as [Hx _].
      rewrite Hp in Hx. discriminate.
Qed.

(** X9.  The three status counts never add up to more than the number of
    rows, and add up to it exactly when every row is OK, WARNING or
    FAULT; the FAULT count is the number of rows the fault trend plots. *)
Theorem status_counts_cover_focus_rows (filtered_df : DataFrame) :
  (list_sum (map snd (status_counts filtered_df)) <= List.length filtered_df)%nat /\
  (list_sum (map snd (status_counts filtered_df)) = List.length filtered_df
   <-> Forall in_focus filtered_df) /\
  rows_with_status filtered_df "FAULT" = List.length (df_faults filtered_df) /\
  rows_with_status filtered_df "FAULT"
  = list_sum (map snd (chart_data filtered_df)).
Proof.
  rewrite status_sum_counts_focus.
  split; [apply filter_length_le | split; [| split]].
  - rewrite filter_length_all, !Forall_forall.
    split; intros H r Hr; specialize (H r Hr).
    + apply orb_prop in H as [H | H]; [apply orb_prop in H as [H | H] |];
        apply eqb_text in H; eexists; (split; [| exact H]);
        unfold status_focus; simpl; auto.
    + destruct H as (s & Hs & Hst). rewrite Hst.
      destruct Hs as [<- | [<- | [<- | []]]]; reflexivity.
  - reflexivity.
  - unfold chart_data. rewrite list_sum_groupby_size, length_map. reflexivity.
Qed.

(** ** Further properties: [latest], the table and the charts *)

Lemma insert_desc_perm (r : TelemetryRecord) (rows : DataFrame) :
  Permutation (r :: rows) (insert_desc r rows).
Proof.
  induction rows as [| r' tl IH]; simpl; [reflexivity |].
  destruct (timestamp r' <=? timestamp r); [reflexivity |].
  rewrite perm_swap. now apply perm_skip.
Qed.

Lemma sort_values_desc_perm (df : DataFrame) :
  Permutation df (sort_values_desc df).
Proof.
  induction df as [| r df IH]; simpl; [constructor |].
  rewrite <- insert_desc_perm. now apply perm_skip.
Qed.

Lemma insert_desc_sorted (r : TelemetryRecord) (rows : DataFrame) :
  newest_first rows -> newest_first (insert_desc r rows).
Proof.
  unfold newest_first. intros Hs.
  induction rows as [| r' tl IH]; simpl.
  - repeat constructor.
  - apply StronglySorted_inv in Hs as [Hs Hhd].
    destruct (timestamp r' <=? timestamp r) eqn:Hle.
    + apply Z.leb_le in Hle. constructor.
      * constructor; assumption.
      * constructor; [exact Hle |].
        eapply Forall_impl; [| exact Hhd]. simpl. intros; lia.
    + apply Z.leb_gt in Hle. constructor; [apply IH, Hs |].
      apply Forall_forall. intros x Hx.
      apply (Permutation_in _ (Permutation_sym (insert_desc_perm r tl))) in Hx.
      destruct Hx as [<- | Hx]; [lia |].
      rewrite Forall_forall in Hhd. now apply Hhd.
Qed.

Lemma sort_values_desc_sorted (df : DataFrame) :
  newest_first (sort_values_desc df).
Proof.
  induction df as [| r df IH]; simpl; [constructor |].
  now apply insert_desc_sorted.
Qed.

(** X10.  [latest] is a row of the frame that no row of the frame is
    newer than; it fails, with an IndexError, only on an empty frame. *)
Theorem latest_is_newest_row (filtered_df : DataFrame) :
  (forall r, latest filtered_df = Return r ->
      In r filtered_df /\
      forall r', In r' filtered_df -> timestamp r' <= timestamp r) /\
  (filtered_df <> [] -> returns (latest filtered_df)) /\
  (latest []
   = raise Exn.IndexError "single positional indexer is out-of-bounds").
Proof.
  pose proof (sort_values_desc_perm filtered_df) as Hperm.
  pose proof (sort_values_desc_sorted filtered_df) as Hsort.
  unfold latest, iloc_first.
  split; [| split; [| reflexivity]].
  - intros r Hr.
    destruct (sort_values_desc filtered_df) as [| r0 tl]; [discriminate |].
    injection Hr as ->. split.
    + apply (Permutation_in _ (Permutation_sym Hperm)). now left.
    + intros r' Hr'. apply (Permutation_in _ Hperm) in Hr'.
      apply StronglySorted_inv in Hsort as [_ Hhd].
      destruct Hr' as [<- | Hr']; [lia |].
      rewrite Forall_forall in Hhd. now apply Hhd.
  - intros Hne. destruct (sort_values_desc filtered_df) as [| r0 tl].
    + apply Permutation_sym, Permutation_nil in Hperm. contradiction.
    + eexists. reflexivity.
Qed.

Lemma latest_is_newest_row_witness :
  sample_window <> [] /\ returns (latest sample_window).
Proof.
  assert (Hne : sample_window <> []) by discriminate.
  split; [exact Hne |].
  exact (proj1 (proj2 (latest_is_newest_row sample_window)) Hne).
Defined.

(** X11.  The telemetry table shows every row of the frame exactly once,
    by its four columns, newest first. *)
Theorem table_lists_rows_newest_first (filtered_df : DataFrame) :
  Permutation (map table_columns filtered_df) (sorted_df filtered_df) /\
  StronglySorted (fun a b => b <= a)
                 (map (fun row => fst (fst (fst row))) (sorted_df filtered_df)) /\
  List.length (sorted_df filtered_df) = List.length filtered_df.
Proof.
  unfold sorted_df. split; [| split].
  - apply Permutation_map, sort_values_desc_perm.
  - rewrite map_map. simpl.
    pose proof (sort_values_desc_sorted filtered_df) as Hs.
    unfold newest_first in Hs.
    induction Hs as [| r rows Hs IH Hhd]; simpl; constructor; [exact IH |].
    rewrite Forall_map. exact Hhd.
  - rewrite length_map. symmetry.
    apply Permutation_length, sort_values_desc_perm.
Qed.

Lemma insert_desc_oldest (r : TelemetryRecord) (rows : DataFrame) :
  Forall (fun r' => timestamp r < timestamp r') rows ->
  insert_desc r rows = (rows ++ [r])%list.
Proof.
  induction rows as [| r' tl IH]; simpl; intros H; [reflexivity |].
  apply Forall_cons_iff in H as [Hlt H].
  destruct (timestamp r' <=? timestamp r) eqn:Hle.
  - apply Z.leb_le in Hle. lia.
  - now rewrite IH.
Qed.

Lemma sort_values_desc_ascending (rows : DataFrame) :
  StronglySorted (fun a b => timestamp a < timestamp b) rows ->
  sort_values_desc rows = rev rows.
Proof.
  induction 1 as [| r rows Hs IH Hhd]; simpl; [reflexivity |].
  rewrite IH. apply insert_desc_oldest.
  apply Forall_rev. exact Hhd.
Qed.

(** X12.  When the rows of the selected device come in strictly
    increasing timestamp order, the row the inference panel picks is the
    row [latest] picks. *)
Theorem selected_data_is_latest_when_ascending
    (df : DataFrame) (selected_device : value)
    (Hasc : StronglySorted (fun a b => timestamp a < timestamp b)
                           (device_rows df selected_device)) :
  selected_data df selected_device = latest (device_rows df selected_device).
Proof.
  unfold selected_data, latest, iloc_last.
  now rewrite sort_values_desc_ascending.
Qed.

Lemma selected_data_is_latest_when_ascending_witness :
  StronglySorted (fun a b => timestamp a < timestamp b)
                 (device_rows sample_window (VStr "pump-1")) /\
  selected_data sample_window (VStr "pump-1")
  = latest (device_rows sample_window (VStr "pump-1")).
Proof.
  assert (Hasc : StronglySorted (fun a b => timestamp a < timestamp b)
                                (device_rows sample_window (VStr "pump-1"))).
  { vm_compute. repeat constructor. }
  split; [exact Hasc |].
  exact (selected_data_is_latest_when_ascending sample_window (VStr "pump-1") Hasc).
Defined.

(** X13.  For a device id that is a text, the inference panel finds a
    row exactly when some row of the frame carries that id, and the row
    it picks is a row of the frame with that id; without such a row the
    lookup fails with an IndexError. *)
Theorem selected_data_of_text_device (df : DataFrame) (s : string) :
  (returns (selected_data df (VStr s)) <-> In (VStr s) (map device_id df)) /\
  (forall r, selected_data df (VStr s) = Return r ->
             In r df /\ device_id r = VStr s) /\
  (~ In (VStr s) (map device_id df) ->
   selected_data df (VStr s)
   = raise Exn.IndexError "single positional indexer is out-of-bounds").
Proof.
  assert (Hrow : forall r, selected_data df (VStr s) = Return r ->
                           In r df /\ device_id r = VStr s).
  { intros r Hr. apply selected_data_last in Hr as [before Hb].
    assert (Hin : In r (device_rows df (VStr s))).
    { rewrite Hb. apply in_or_app. right. now left. }
    unfold device_rows in Hin. apply filter_In in Hin as [Hin Heq].
    apply eqb_text in Heq. auto. }
  assert (Hsome : In (VStr s) (map device_id df) ->
                  returns (selected_data df (VStr s))).
  { intros Hin. apply in_map_iff in Hin as (r & Hdev & Hin).
    assert (Hin' : In r (device_rows df (VStr s))).
    { unfold device_rows. apply filter_In. split; [exact Hin |].
      now apply eqb_text. }
    unfold selected_data, iloc_last, iloc_first.
    destruct (rev (device_rows df (VStr s))) as [| r0 tl] eqn:Hrev.
    - apply in_rev in Hin'. rewrite Hrev in Hin'. contradiction.
    - eexists. reflexivity. }
  split; [split | split]; auto.
  - intros [r Hr]. destruct (Hrow r Hr) as [Hin Hdev].
    apply in_map_iff. exists r. auto.
  - intros Hno. unfold selected_data, iloc_last, iloc_first.
    destruct (rev (device_rows df (VStr s))) as [| r0 tl] eqn:Hrev;
      [reflexivity |].
    exfalso. apply Hno.
    assert (Hin : In r0 (device_rows df (VStr s))).
    { apply in_rev. rewrite Hrev. now left. }
    unfold device_rows in Hin. apply filter_In in Hin as [Hin Heq].
    apply eqb_text in Heq. apply in_map_iff. exists r0. auto.
Qed.

Lemma selected_data_of_text_device_witness :
  ~ In (VStr "pump-9") (map device_id sample_window) /\
  selected_data sample_window (VStr "pump-9")
  = raise Exn.IndexError "single positional indexer is out-of-bounds".
Proof.
  assert (Hno : ~ In (VStr "pump-9") (map device_id sample_window)).
  { vm_compute. intros [H | [H | [H | [H | []]]]]; discriminate. }
  split; [exact Hno |].
  exact (proj2 (proj2 (selected_data_of_text_device sample_window "pump-9")) Hno).
Defined.

(** ** Further properties: [get_prediction] *)

Lemma passes_status_ok (response : Response) :
  passes_status response -> raise_for_status response = Return tt.
Proof.
  unfold passes_status, raise_for_status. intros H.
  destruct (400 <=? status_code response) eqn:H1;
    destruct (status_code response <? 600) eqn:H2; simpl; try reflexivity.
  apply Z.leb_le in H1. apply Z.ltb_lt in H2. lia.
Qed.

(** X14.  When the endpoint answers with a passing status and a JSON
    body in which "prediction" is found (a key of an object, an element
    of an array, a part of a text), the body is returned as it is. *)
Theorem prediction_body_returned_verbatim
    (post : Transport) (device_id temp vib : value)
    (response : Response) (body : value)
    (Hpost : post endpoint (request_body device_id temp vib) = Return response)
    (Hstatus : passes_status response)
    (Hbody : body_json response = Some body)
    (Hkey : contains_key "prediction" body = Return true) :
  get_prediction post device_id temp vib = Return body.
Proof.
  unfold get_prediction, get_prediction_try.
  fold (request_body device_id temp vib). rewrite Hpost. simpl.
  rewrite (passes_status_ok _ Hstatus). simpl.
  unfold json. rewrite Hbody. simpl. rewrite Hkey. reflexivity.
Qed.

Lemma prediction_body_returned_verbatim_witness :
  get_prediction echo (VStr "pump-1") (VFloat (Float.of_Z 20))
                 (VFloat (Float.of_decimal 5 (-2)))
  = Return (VDict [("prediction", VStr "Low Risk");
                   ("request", request_body (VStr "pump-1")
                                 (VFloat (Float.of_Z 20))
                                 (VFloat (Float.of_decimal 5 (-2))))]).
Proof.
  refine (prediction_body_returned_verbatim echo _ _ _
            (mkResponse 200 (Some _)) _ eq_refl _ eq_refl eq_refl).
  left. simpl. lia.
Defined.

(** X15.  When the endpoint answers with a passing status and a JSON
    body in which "prediction" is not found, the result is the error
    "Missing 'prediction' key in Lambda response" together with the body
    under "raw". *)
Theorem missing_prediction_reported_with_raw
    (post : Transport) (device_id temp vib : value)
    (response : Response) (body : value)
    (Hpost : post endpoint (request_body device_id temp vib) = Return response)
    (Hstatus : passes_status response)
    (Hbody : body_json response = Some body)
    (Hkey : contains_key "prediction" body = Return false) :
  get_prediction post device_id temp vib
  = Return (VDict [("error", VStr "Missing 'prediction' key in Lambda response");
                   ("raw", body)]).
Proof.
  unfold get_prediction, get_prediction_try.
  fold (request_body device_id temp vib). rewrite Hpost. simpl.
  rewrite (passes_status_ok _ Hstatus). simpl.
  unfold json. rewrite Hbody. simpl. rewrite Hkey. reflexivity.
Qed.

Lemma missing_prediction_reported_with_raw_witness :
  get_prediction foo_bar (VStr "pump-1") (VFloat (Float.of_Z 20))
                 (VFloat (Float.of_decimal 5 (-2)))
  = Return (VDict [("error", VStr "Missing 'prediction' key in Lambda response");
                   ("raw", VDict [("foo", VStr "bar")])]).
Proof.
  refine (missing_prediction_reported_with_raw foo_bar _ _ _
            (mkResponse 200 (Some _)) _ eq_refl _ eq_refl eq_refl).
  left. simpl. lia.
Defined.

(** X16.  A transport failure that is a [RequestException] (connection
    refused, timeout) and a response with a status from 400 to 599 both
    give an error that starts with "HTTP error: ", whatever the body. *)
Theorem http_failure_reported
    (post : Transport) (device_id temp vib : value)
    (Hfail :
       (exists e, post endpoint (request_body device_id temp vib) = Raise e /\
                  Exn.isinstance e Exn.RequestException = true) \/
       (exists response,
           post endpoint (request_body device_id temp vib) = Return response /\
           400 <= status_code response < 600)) :
  exists msg,
    get_prediction post device_id temp vib
    = Return (VDict [("error", VStr ("HTTP error: " ++ msg))]).
Proof.
  unfold get_prediction, get_prediction_try.
  fold (request_body device_id temp vib).
  destruct Hfail as [(e & Hpost & He) | (response & Hpost & Hcode)];
    rewrite Hpost; simpl.
  - rewrite He. eexists. reflexivity.
  - unfold raise_for_status.
    assert (H1 : (400 <=? status_code response) = true) by (apply Z.leb_le; lia).
    assert (H2 : (status_code response <? 600) = true) by (apply Z.ltb_lt; lia).
    rewrite H1, H2. simpl. eexists. reflexivity.
Qed.

Lemma http_failure_reported_witness :
  exists msg,
    get_prediction unavailable (VStr "pump-1") (VFloat (Float.of_Z 20))
                   (VFloat (Float.of_decimal 5 (-2)))
    = Return (VDict [("error", VStr ("HTTP error: " ++ msg))]).
Proof.
  apply http_failure_reported. right.
  exists (mkResponse 503 None). split; [reflexivity | simpl; lia].
Defined.

(** X17.  A passing response whose JSON body is a number, a boolean or
    null makes the membership test raise a TypeError, which neither
    [except] clause takes: it leaves [get_prediction] as an exception. *)
Theorem scalar_body_raises_type_error
    (post : Transport) (device_id temp vib : value)
    (response : Response) (body : value)
    (Hpost : post endpoint (request_body device_id temp vib) = Return response)
    (Hstatus : passes_status response)
    (Hbody : body_json response = Some body)
    (Hscalar : body = VNone \/ (exists b, body = VBool b) \/
               (exists z, body = VInt z) \/ (exists f, body = VFloat f)) :
  get_prediction post device_id temp vib
  = raise Exn.TypeError "argument is not iterable".
Proof.
  unfold get_prediction, get_prediction_try.
  fold (request_body device_id temp vib). rewrite Hpost. simpl.
  rewrite (passes_status_ok _ Hstatus). simpl.
  unfold json. rewrite Hbody. simpl.
  destruct Hscalar as [-> | [[b ->] | [[z ->] | [f ->]]]]; reflexivity.
Qed.

Lemma scalar_body_raises_type_error_witness :
  get_prediction number_page (VStr "pump-1") (VFloat (Float.of_Z 20))
                 (VFloat (Float.of_decimal 5 (-2)))
  = raise Exn.TypeError "argument is not iterable".
Proof.
  refine (scalar_body_raises_type_error number_page _ _ _
            (mkResponse 200 (Some (VInt 5))) (VInt 5) eq_refl _ eq_refl _).
  - left. simpl. lia.
  - right; right; left. exists 5. reflexivity.
Defined.

(** X18.  No [RequestException] and no [ValueError] ever leaves
    [get_prediction]: whatever the transport does, an exception that
    escapes is of neither class. *)
Theorem no_request_or_value_error_escapes
    (post : Transport) (device_id temp vib : value) (e : Exn.t)
    (Hraise : get_prediction post device_id temp vib = Raise e) :
  Exn.isinstance e Exn.RequestException = false /\
  Exn.isinstance e Exn.ValueError = false.
Proof.
  unfold get_prediction in Hraise.
  destruct (get_prediction_try post device_id temp vib) as [v | e'];
    [discriminate |].
  destruct (Exn.isinstance e' Exn.RequestException) eqn:H1; [discriminate |].
  destruct (Exn.isinstance e' Exn.ValueError) eqn:H2; [discriminate |].
  injection Hraise as <-. auto.
Qed.

Lemma no_request_or_value_error_escapes_witness :
  get_prediction number_page VNone VNone VNone
  = Raise (Exn.mk Exn.TypeError "argument is not iterable") /\
  Exn.isinstance (Exn.mk Exn.TypeError "argument is not iterable")
                 Exn.RequestException = false.
Proof.
  assert (H : get_prediction number_page VNone VNone VNone
              = Raise (Exn.mk Exn.TypeError "argument is not iterable"))
    by reflexivity.
  split; [exact H |].
  exact (proj1 (no_request_or_value_error_escapes number_page VNone VNone VNone _ H)).
Defined.

(** ** Further properties: completeness *)

(** X19.  For every window length from 1 to 240 and every record count
    from 0 to 240, the completeness reported is a one-decimal figure that
    is below 100.0 exactly when fewer records than minutes arrived, and
    is 100.0 exactly when there is one record per minute. *)
Theorem completeness_below_100_iff_short (actual w : Z)
    (Hw : 1 <= w <= 240) (Ha : 0 <= actual <= 240) :
  exists tenths,
    completion_rate actual w = Return (one_decimal tenths) /\
    (tenths < 1000 <-> actual < w) /\
    (tenths = 1000 <-> actual = w).
Proof.
  destruct (completeness_checked_sound actual w) as (tenths & Hrate & Hnear & _).
  { apply (range_checked_covers checked_actual 240);
      [apply range_checked_holds | exact Hw | exact Ha]. }
  exists tenths. split; [exact Hrate |].
  assert (Hlo : 2 * (1000 * actual - tenths * w) <= w) by lia.
  assert (Hhi : 2 * (tenths * w - 1000 * actual) <= w) by lia.
  clear Hnear Hrate.
  assert (Hbelow : tenths < 1000 <-> actual < w).
  { split; intros H.
    - assert (tenths * w <= 999 * w) by nia. lia.
    - destruct (Z_lt_ge_dec tenths 1000) as [Hlt | Hge]; [exact Hlt |].
      assert (1000 * w <= tenths * w) by nia. lia. }
  assert (Habove : 1000 < tenths <-> w < actual).
  { split; intros H.
    - assert (1001 * w <= tenths * w) by nia. lia.
    - destruct (Z_lt_ge_dec 1000 tenths) as [Hlt | Hge]; [exact Hlt |].
      assert (tenths * w <= 1000 * w) by nia. lia. }
  split; [exact Hbelow | lia].
Qed.

Lemma completeness_below_100_iff_short_witness :
  1 <= 60 <= 240 /\ 0 <= 45 <= 240 /\
  exists tenths,
    completion_rate 45 60 = Return (one_decimal tenths) /\
    (tenths < 1000 <-> 45 < 60) /\ (tenths = 1000 <-> 45 = 60).
Proof.
  assert (Hw : 1 <= 60 <= 240) by lia.
  assert (Ha : 0 <= 45 <= 240) by lia.
  split; [exact Hw | split; [exact Ha |]].
  exact (completeness_below_100_iff_short 45 60 Hw Ha).
Defined.

(** ** Further properties: the fault trend *)

Lemma well_grouped_tail (g : Z * nat) (groups : list (Z * nat)) :
  well_grouped (g :: groups) -> well_grouped groups.
Proof.
  intros [Hs Hp]. simpl in Hs. apply StronglySorted_inv in Hs as [Hs _].
  apply Forall_cons_iff in Hp as [_ Hp]. split; assumption.
Qed.

Lemma well_grouped_head_least (b : Z) (n : nat) (groups : list (Z * nat))
    (b' : Z) (n' : nat) :
  well_grouped ((b, n) :: groups) -> In (b', n') groups -> b < b'.
Proof.
  intros [Hs _] Hin. simpl in Hs. apply StronglySorted_inv in Hs as [_ Hhd].
  rewrite Forall_forall in Hhd. apply Hhd.
  change b' with (fst (b', n')). now apply in_map.
Qed.

(** Well-grouped rows are determined by the counts they record. *)
Lemma well_grouped_unique (g1 g2 : list (Z * nat)) :
  well_grouped g1 -> well_grouped g2 ->
  (forall b n, In (b, n) g1 <-> In (b, n) g2) -> g1 = g2.
Proof.
  revert g2. induction g1 as [| [b1 n1] t1 IH]; intros g2 H1 H2 Hsame.
  - destruct g2 as [| [b2 n2] t2]; [reflexivity |].
    exfalso. apply (Hsame b2 n2). now left.
  - destruct g2 as [| [b2 n2] t2].
    + exfalso. apply (Hsame b1 n1). now left.
    + assert (Hhead : (b1, n1) = (b2, n2)).
      { assert (Ha : In (b1, n1) ((b2, n2) :: t2)) by (apply Hsame; now left).
        assert (Hb : In (b2, n2) ((b1, n1) :: t1)) by (apply Hsame; now left).
        destruct Ha as [Ha | Ha]; [now symmetry |].
        destruct Hb as [Hb | Hb]; [exact Hb |].
        pose proof (well_grouped_head_least _ _ _ _ _ H2 Ha).
        pose proof (well_grouped_head_least _ _ _ _ _ H1 Hb). lia. }
      injection Hhead as <- <-. f_equal.
      apply IH; [eapply well_grouped_tail; eassumption
                | eapply well_grouped_tail; eassumption |].
      intros b n. split; intros Hin.
      * assert (Hin' : In (b, n) ((b1, n1) :: t2)) by (apply Hsame; now right).
        destruct Hin' as [Heq | Hin']; [| exact Hin'].
        injection Heq as <- <-.
        pose proof (well_grouped_head_least _ _ _ _ _ H1 Hin). lia.
      * assert (Hin' : In (b, n) ((b1, n1) :: t1)) by (apply Hsame; now right).
        destruct Hin' as [Heq | Hin']; [| exact Hin'].
        injection Heq as <- <-.
        pose proof (well_grouped_head_least _ _ _ _ _ H2 Hin). lia.
Qed.

Lemma filter_length_perm {A} (p : A -> bool) (l l' : list A) :
  Permutation l l' -> List.length (filter p l) = List.length (filter p l').
Proof.
  induction 1 as [| x l l' _ IH | x y l | l l' l'' _ IH1 _ IH2]; simpl.
  - reflexivity.
  - destruct (p x); simpl; now rewrite IH.
  - destruct (p x), (p y); reflexivity.
  - now rewrite IH1.
Qed.

(** X20.  The fault trend does not depend on the order of the rows: two
    frames with the same rows in different orders give the same chart. *)
Theorem fault_trend_ignores_row_order (df df' : DataFrame)
    (Hperm : Permutation df df') :
  chart_data df = chart_data df' /\ fault_trend df = fault_trend df'.
Proof.
  assert (Hchart : chart_data df = chart_data df').
  { apply well_grouped_unique; try apply groupby_size_well_grouped.
    intros b n. rewrite !chart_data_row.
    unfold rows_in_bucket, df_faults. rewrite !filter_filter.
    now rewrite (filter_length_perm _ df df' Hperm). }
  split; [exact Hchart |].
  unfold fault_trend. rewrite Hchart.
  assert (Hlen : List.length (df_faults df) = List.length (df_faults df'))
    by (unfold df_faults; now apply filter_length_perm).
  destruct (df_faults df), (df_faults df'); simpl in Hlen;
    try discriminate; reflexivity.
Qed.

Lemma fault_trend_ignores_row_order_witness :
  Permutation sample_window (rev sample_window) /\
  chart_data sample_window = chart_data (rev sample_window).
Proof.
  assert (Hperm : Permutation sample_window (rev sample_window))
    by apply Permutation_rev.
  split; [exact Hperm |].
  exact (proj1 (fault_trend_ignores_row_order _ _ Hperm)).
Defined.

(** X21.  Every bucket of the fault trend starts on a multiple of 15
    minutes and holds a FAULT row of the frame stamped within the 15
    minutes that follow its start. *)
Theorem buckets_aligned_and_inhabited (filtered_df : DataFrame)
    (b : Z) (n : nat) (Hrow : In (b, n) (chart_data filtered_df)) :
  b mod 900000000 = 0 /\
  exists r, In r filtered_df /\ status r = VStr "FAULT" /\
            b <= timestamp r < b + 900000000.
Proof.
  apply chart_data_row in Hrow as [Hpos ->].
  unfold rows_in_bucket in Hpos.
  destruct (filter (fun r => floor_15min (timestamp r) =? b)
                   (df_faults filtered_df)) as [| r tl] eqn:Hf;
    [simpl in Hpos; lia |].
  assert (Hin : In r (filter (fun r => floor_15min (timestamp r) =? b)
                             (df_faults filtered_df)))
    by (rewrite Hf; now left).
  apply filter_In in Hin as [Hin Hb]. apply Z.eqb_eq in Hb.
  unfold df_faults in Hin. apply filter_In in Hin as [Hin Hfault].
  apply is_fault_iff in Hfault.
  unfold floor_15min in Hb. subst b. split.
  - apply Z.mod_mul. lia.
  - exists r. repeat split; try assumption.
    + rewrite Z.mul_comm. apply Z.mul_div_le. lia.
    + pose proof (Z.mod_pos_bound (timestamp r) 900000000 ltac:(lia)).
      pose proof (Z.div_mod (timestamp r) 900000000 ltac:(lia)). lia.
Qed.

Lemma buckets_aligned_and_inhabited_witness :
  In (to_datetime 900, 2%nat) (chart_data sample_window) /\
  to_datetime 900 mod 900000000 = 0.
Proof.
  assert (Hrow : In (to_datetime 900, 2%nat) (chart_data sample_window))
    by (left; vm_compute; reflexivity).
  split; [exact Hrow |].
  exact (proj1 (buckets_aligned_and_inhabited sample_window _ _ Hrow)).
Defined.

(** X22.  The fault trend shows its notice instead of a chart exactly
    when no row of the frame has the status FAULT, and a chart it does
    draw is never empty. *)
Theorem notice_iff_no_fault (filtered_df : DataFrame) :
  (fault_trend filtered_df = NoFaultEvents <->
   forall r, In r filtered_df -> status r <> VStr "FAULT") /\
  (forall rows, fault_trend filtered_df = LineChart rows -> rows <> []).
Proof.
  unfold fault_trend. split.
  - destruct (df_faults filtered_df) as [| r0 tl] eqn:Hf.
    + split; [| reflexivity]. intros _ r Hr Hst.
      assert (Hin : In r (df_faults filtered_df)).
      { unfold df_faults. apply filter_In. split; [exact Hr |].
        now apply is_fault_iff. }
      rewrite Hf in Hin. contradiction.
    + split; [discriminate |]. intros Hno. exfalso.
      assert (Hin : In r0 (df_faults filtered_df)) by (rewrite Hf; now left).
      unfold df_faults in Hin. apply filter_In in Hin as [Hin Hst].
      apply is_fault_iff in Hst. exact (Hno r0 Hin Hst).
  - intros rows Hrows.
    destruct (df_faults filtered_df) as [| r0 tl] eqn:Hf; [discriminate |].
    injection Hrows as <-. intros Hempty.
    pose proof (list_sum_groupby_size
                  (map (fun r => floor_15min (timestamp r)) (df_faults filtered_df)))
      as Hsum.
    fold (chart_data filtered_df) in Hsum.
    rewrite Hempty, length_map, Hf in Hsum. discriminate.
Qed.

(** ** Further properties: the charts over time *)

Lemma insert_asc_perm (r : TelemetryRecord) (rows : DataFrame) :
  Permutation (r :: rows) (insert_asc r rows).
Proof.
  induction rows as [| r' tl IH]; simpl; [reflexivity |].
  destruct (timestamp r <=? timestamp r'); [reflexivity |].
  rewrite perm_swap. now apply perm_skip.
Qed.

Lemma sort_index_perm (df : DataFrame) : Permutation df (sort_index df).
Proof.
  induction df as [| r df IH]; simpl; [constructor |].
  rewrite <- insert_asc_perm. now apply perm_skip.
Qed.

Lemma insert_asc_sorted (r : TelemetryRecord) (rows : DataFrame) :
  StronglySorted (fun a b => timestamp a <= timestamp b) rows ->
  StronglySorted (fun a b => timestamp a <= timestamp b) (insert_asc r rows).
Proof.
  intros Hs. induction rows as [| r' tl IH]; simpl.
  - repeat constructor.
  - apply StronglySorted_inv in Hs as [Hs Hhd].
    destruct (timestamp r <=? timestamp r') eqn:Hle.
    + apply Z.leb_le in Hle. constructor.
      * constructor; assumption.
      * constructor; [exact Hle |].
        eapply Forall_impl; [| exact Hhd]. simpl. intros; lia.
    + apply Z.leb_gt in Hle. constructor; [apply IH, Hs |].
      apply Forall_forall. intros x Hx.
      apply (Permutation_in _ (Permutation_sym (insert_asc_perm r tl))) in Hx.
      destruct Hx as [<- | Hx]; [lia |].
      rewrite Forall_forall in Hhd. now apply Hhd.
Qed.

Lemma sort_index_sorted (df : DataFrame) :
  StronglySorted (fun a b => timestamp a <= timestamp b) (sort_index df).
Proof.
  induction df as [| r df IH]; simpl; [constructor |].
  now apply insert_asc_sorted.
Qed.

(** X23.  The temperature and vibration charts plot every row of the
    frame exactly once, as the point (timestamp, reading), in ascending
    time order; only the "Fault Trend" choice draws the bucketed trend. *)
Theorem series_plots_rows_in_time_order
    (column : TelemetryRecord -> Float.t) (filtered_df : DataFrame) :
  Permutation (map (fun r => (timestamp r, column r)) filtered_df)
              (time_series column filtered_df) /\
  StronglySorted Z.le (map fst (time_series column filtered_df)) /\
  chart_over_time Temperature filtered_df
  = Series (time_series temperature filtered_df) /\
  chart_over_time Vibration filtered_df
  = Series (time_series vibration filtered_df) /\
  chart_over_time FaultTrend filtered_df = Trend (fault_trend filtered_df).
Proof.
  unfold time_series. split; [| split; [| repeat split]].
  - apply Permutation_map, sort_index_perm.
  - rewrite map_map. simpl.
    pose proof (sort_index_sorted filtered_df) as Hs.
    induction Hs as [| r rows Hs IH Hhd]; simpl; constructor; [exact IH |].
    rewrite Forall_map. exact Hhd.
Qed.

(** ** Further properties: from the scan to the window *)

